(** * HttpServer: the request/response engine of aria2's embedded HTTP server

    A shallow embedding of [src/Aria2c/aria2-1.15.1/src/HttpServer.cc].
    The C++ object is a record, its member functions are functions in a
    small exception-and-state monad (a [throw] leaves the members as they
    were at that point), and the socket is an input: what one [recv()]
    would deliver and what [wantRead()]/[wantWrite()] would answer. *)

From Stdlib Require Import ZArith Lia Bool Ascii String List DecimalString.
From Stdlib Require Import Strings.Byte.
From stdpp Require Import gmap strings.
Import ListNotations.

Local Open Scope Z_scope.

(** ** Byte strings *)

(** [std::string] is [string]; raw socket data ([unsigned char*]) is a
    list of bytes. *)
Abbreviation bytes := (list byte).

Definition CRLF : string := String "013" (String "010" EmptyString).

(** [s.empty()] *)
Definition empty (s : string) : bool :=
  match s with EmptyString => true | String _ _ => false end.

(** The [%lu] conversion of [fmt]: the decimal digits of an unsigned
    number. *)
Definition fmt_lu (n : N) : string := NilZero.string_of_uint (N.to_uint n).

(** [text.size()], as the [unsigned long] handed to [fmt]. *)
Definition size (s : string) : N := N.of_nat (String.length s).

(** ** The status table (HttpServer.cc, lines 73-121) *)

Definition getStatusString (status : Z) : string :=
  match status with
  | 100 => "100 Continue"
  | 101 => "101 Switching Protocols"
  | 200 => "200 OK"
  | 201 => "201 Created"
  | 202 => "202 Accepted"
  | 203 => "203 Non-Authoritative Information"
  | 204 => "204 No Content"
  | 205 => "205 Reset Content"
  | 206 => "206 Partial Content"
  | 300 => "300 Multiple Choices"
  | 301 => "301 Moved Permanently"
  | 302 => "302 Found"
  | 303 => "303 See Other"
  | 304 => "304 Not Modified"
  | 305 => "305 Use Proxy"
  | 307 => "307 Temporary Redirect"
  | 400 => "400 Bad Request"
  | 401 => "401 Unauthorized"
  | 402 => "402 Payment Required"
  | 403 => "403 Forbidden"
  | 404 => "404 Not Found"
  | 405 => "405 Method Not Allowed"
  | 406 => "406 Not Acceptable"
  | 407 => "407 Proxy Authentication Required"
  | 408 => "408 Request Timeout"
  | 409 => "409 Conflict"
  | 410 => "410 Gone"
  | 411 => "411 Length Required"
  | 412 => "412 Precondition Failed"
  | 413 => "413 Request Entity Too Large"
  | 414 => "414 Request-URI Too Long"
  | 415 => "415 Unsupported Media Type"
  | 416 => "416 Requested Range Not Satisfiable"
  | 417 => "417 Expectation Failed"
  | 426 => "426 Upgrade Required"
  | 500 => "500 Internal Server Error"
  | 501 => "501 Not Implemented"
  | 502 => "502 Bad Gateway"
  | 503 => "503 Service Unavailable"
  | 504 => "504 Gateway Timeout"
  | 505 => "505 HTTP Version Not Supported"
  | _ => ""
  end.


(** ** String helpers of [util.h] *)

(** The helpers below are called by HttpServer.cc and declared in util.h,
    which is not among the sources; each is modelled by what its call and
    the specification say about it. *)

(** Modelled from the spec: the case folding behind every
    "case-insensitive" comparison; only the ASCII letters A-Z change. *)
Definition tolower (c : ascii) : ascii :=
  let n := N_of_ascii c in
  if ((65 <=? n) && (n <=? 90))%N then ascii_of_N (n + 32) else c.

Fixpoint lower (s : string) : string :=
  match s with
  | EmptyString => EmptyString
  | String c r => String (tolower c) (lower r)
  end.

(** Modelled from the spec: [util::streq(first, last, ...)], equality of
    two character ranges, byte for byte. *)
Definition streq (a b : string) : bool := String.eqb a b.

(** Modelled from the spec: [util::strieq(first1, last1, first2, last2)],
    equality of two character ranges ignoring ASCII case. *)
Definition strieq (a b : string) : bool := String.eqb (lower a) (lower b).

(** [iprefix t s]: the range [t] matches at the start of [s], ignoring
    case. *)
Fixpoint iprefix (t s : string) : bool :=
  match t, s with
  | EmptyString, _ => true
  | String _ _, EmptyString => false
  | String a t', String b s' => Ascii.eqb (tolower a) (tolower b) && iprefix t' s'
  end.

(** Modelled from the spec: [util::strifind(first1, last1, first2, last2)]
    is outside HttpServer.cc; by its name and its use it is the search of
    the second range inside the first, ignoring ASCII case, like
    [std::search].  Its callers compare the result with [last1], so it
    returns an iterator of the first range: here the offset of the first
    match, and the length of the first range ("last1") when there is
    none. *)
Fixpoint strifind (s t : string) : nat :=
  match s with
  | EmptyString => 0%nat
  | String _ s' => if iprefix t s then 0%nat else S (strifind s' t)
  end.

(** [strifind(s.begin(), s.end(), ...) == s.end()] *)
Definition strifind_is_end (s t : string) : bool :=
  Nat.eqb (strifind s t) (String.length s).

(** The characters removed by trimming: CR, LF, TAB and space. *)
Definition isStripChar (c : ascii) : bool :=
  let n := N_of_ascii c in
  ((n =? 13) || (n =? 10) || (n =? 9) || (n =? 32))%N.

Fixpoint lstrip (s : string) : string :=
  match s with
  | EmptyString => EmptyString
  | String c r => if isStripChar c then lstrip r else s
  end.

Fixpoint rstrip (s : string) : string :=
  match s with
  | EmptyString => EmptyString
  | String c r =>
      let r' := rstrip r in
      if empty r' && isStripChar c then EmptyString else String c r'
  end.

(** Modelled from the spec: [util::stripIter], the trimming of a range. *)
Definition stripIter (s : string) : string := rstrip (lstrip s).

(** The pieces of [s] between the occurrences of [delim]. *)
Fixpoint pieces (delim : ascii) (s : string) : list string :=
  match s with
  | EmptyString => [EmptyString]
  | String c r =>
      if Ascii.eqb c delim then EmptyString :: pieces delim r
      else match pieces delim r with
           | p :: ps => String c p :: ps
           | [] => [String c EmptyString]
           end
  end.

(** Modelled from the spec: [util::splitIter(first, last, out, delim,
    doStrip)], the list of the tokens of a delimiter-separated value, each
    trimmed when [doStrip] is set; empty tokens are not reported. *)
Definition splitIter (s : string) (delim : ascii) (doStrip : bool) : list string :=
  filter (fun tok => negb (empty tok))
         (map (fun p => if doStrip then stripIter p else p) (pieces delim s)).

(** ** The request header (HttpHeader.h) *)

(** Modelled from the spec: the structured request header: method, request
    path, version, and the field table from lower-cased field name to raw
    value. *)
Record HttpHeader := mkHttpHeader {
  getMethod_ : string;
  getRequestPath_ : string;
  getVersion : string;
  table_ : gmap string string
}.

(** Modelled from the spec: [HttpHeader::find(name)], the value of a field,
    the empty string when the request does not carry it. *)
Definition find (h : HttpHeader) (name : string) : string :=
  default EmptyString (table_ h !! name).

(** Modelled from the spec: the constants of HttpHeader.h used here. *)
Definition HTTP_1_1 : string := "HTTP/1.1".
Definition CONNECTION : string := "connection".
Definition CONTENT_LENGTH : string := "content-length".
Definition ACCEPT_ENCODING : string := "accept-encoding".
Definition AUTHORIZATION : string := "authorization".
Definition CLOSE : string := "close".
Definition KEEP_ALIVE : string := "keep-alive".
Definition GZIP : string := "gzip".

(** ** The collaborators: receive buffer, send queue, header processor *)

(** What the socket answers during one call: the bytes one [recv()] reads
    (none when nothing has arrived), and [wantRead()] / [wantWrite()]. *)
Record SocketEvent := mkSocketEvent {
  readData : bytes;
  wantRead : bool;
  wantWrite : bool
}.

(** [size_t] arithmetic is modulo 2^64. *)
Definition to_size_t (z : Z) : Z := z mod 2 ^ 64.

(** Modelled from the spec: the end-of-headers marker is the first blank
    line of the accumulated bytes, CR LF CR LF or LF LF. *)
Definition CR : byte := x0d.
Definition LF : byte := x0a.

Fixpoint starts_with (p l : bytes) : bool :=
  match p, l with
  | [], _ => true
  | _ :: _, [] => false
  | a :: p', b :: l' => Byte.eqb a b && starts_with p' l'
  end.

(** [find_eoh l = Some (h, e)]: the first marker starts at offset [h] and
    the first byte past it is at offset [e]. *)
Fixpoint find_eoh (l : bytes) : option (nat * nat) :=
  match l with
  | [] => None
  | _ :: r =>
      if starts_with [CR; LF; CR; LF] l then Some (0, 4)%nat
      else if starts_with [LF; LF] l then Some (0, 2)%nat
      else match find_eoh r with
           | Some (h, e) => Some (S h, S e)
           | None => None
           end
  end.

(** Modelled from the spec: the header processor keeps the bytes received
    since its last reset. *)
Record HttpHeaderProcessor := mkHttpHeaderProcessor { buf_ : bytes }.

(** [update(data, length)]: append to the accumulation. *)
Definition update (hp : HttpHeaderProcessor) (data : bytes) : HttpHeaderProcessor :=
  mkHttpHeaderProcessor (buf_ hp ++ data).

(** [eoh()]: the marker has been found. *)
Definition eoh (hp : HttpHeaderProcessor) : bool :=
  match find_eoh (buf_ hp) with Some _ => true | None => false end.

(** [getPutBackDataLength()]: the number of accumulated bytes past the
    marker. *)
Definition getPutBackDataLength (hp : HttpHeaderProcessor) : Z :=
  match find_eoh (buf_ hp) with
  | Some (_, e) => Z.of_nat (length (buf_ hp)) - Z.of_nat e
  | None => 0
  end.

(** The header block: the accumulated bytes before the marker. *)
Definition headerBlock (hp : HttpHeaderProcessor) : bytes :=
  match find_eoh (buf_ hp) with
  | Some (h, _) => firstn h (buf_ hp)
  | None => buf_ hp
  end.

(** [clear()] *)
Definition clear : HttpHeaderProcessor := mkHttpHeaderProcessor [].

(** [std::stringstream]: the characters written so far and the get
    position.  [write] appends, so the put position is the number of
    characters written; the get position moves only when the stream is
    read, and [str()] does not read. *)
Record stringstream := mkStringstream { str : bytes; gpos : Z }.

Definition tellg (ss : stringstream) : Z := gpos ss.
Definition tellp (ss : stringstream) : Z := Z.of_nat (length (str ss)).
Definition write (ss : stringstream) (data : bytes) (n : Z) : stringstream :=
  mkStringstream (str ss ++ firstn (Z.to_nat n) data) (gpos ss).
(** [clear(); str("")] *)
Definition ss_reset : stringstream := mkStringstream [] 0.

(** ** The server object *)

Record HttpServer := mkHttpServer {
  socketRecvBuffer_ : bytes;           (* the window of SocketRecvBuffer *)
  socketBuffer_ : list string;         (* the chunks queued in SocketBuffer *)
  headerProcessor_ : HttpHeaderProcessor;
  lastRequestHeader_ : option HttpHeader;  (* a SharedHandle, null at first *)
  lastBody_ : stringstream;
  lastContentLength_ : Z;              (* int64_t *)
  keepAlive_ : bool;
  gzip_ : bool;
  acceptsPersistentConnection_ : bool;
  acceptsGZip_ : bool;
  username_ : string;
  password_ : string;
  allowOrigin_ : string
}.

(** The constructor (lines 56-68).  [lastContentLength_] is not in the
    initializer list: until line 144 stores a value, the member holds
    whatever was in its storage, here [uninitialised]. *)
Definition HttpServer_ctor (uninitialised : Z) : HttpServer :=
  {| socketRecvBuffer_ := []; socketBuffer_ := [];
     headerProcessor_ := clear; lastRequestHeader_ := None;
     lastBody_ := ss_reset; lastContentLength_ := uninitialised;
     keepAlive_ := true; gzip_ := false;
     acceptsPersistentConnection_ := true; acceptsGZip_ := false;
     username_ := ""; password_ := ""; allowOrigin_ := "" |}.

(** The fresh server of the concrete runs below: the constructed object in
    which the uninitialised member happens to hold 0.  No run below reads
    the member before [receiveRequest] or [set_lastContentLength] has
    stored a length. *)
Definition new_HttpServer : HttpServer := HttpServer_ctor 0.

Definition set_socketRecvBuffer (v : bytes) (s : HttpServer) : HttpServer :=
  mkHttpServer v (socketBuffer_ s) (headerProcessor_ s) (lastRequestHeader_ s)
    (lastBody_ s) (lastContentLength_ s) (keepAlive_ s) (gzip_ s)
    (acceptsPersistentConnection_ s) (acceptsGZip_ s) (username_ s)
    (password_ s) (allowOrigin_ s).
Definition set_socketBuffer (v : list string) (s : HttpServer) : HttpServer :=
  mkHttpServer (socketRecvBuffer_ s) v (headerProcessor_ s) (lastRequestHeader_ s)
    (lastBody_ s) (lastContentLength_ s) (keepAlive_ s) (gzip_ s)
    (acceptsPersistentConnection_ s) (acceptsGZip_ s) (username_ s)
    (password_ s) (allowOrigin_ s).
Definition set_headerProcessor (v : HttpHeaderProcessor) (s : HttpServer) : HttpServer :=
  mkHttpServer (socketRecvBuffer_ s) (socketBuffer_ s) v (lastRequestHeader_ s)
    (lastBody_ s) (lastContentLength_ s) (keepAlive_ s) (gzip_ s)
    (acceptsPersistentConnection_ s) (acceptsGZip_ s) (username_ s)
    (password_ s) (allowOrigin_ s).
Definition set_lastRequestHeader (v : option HttpHeader) (s : HttpServer) : HttpServer :=
  mkHttpServer (socketRecvBuffer_ s) (socketBuffer_ s) (headerProcessor_ s) v
    (lastBody_ s) (lastContentLength_ s) (keepAlive_ s) (gzip_ s)
    (acceptsPersistentConnection_ s) (acceptsGZip_ s) (username_ s)
    (password_ s) (allowOrigin_ s).
Definition set_lastBody (v : stringstream) (s : HttpServer) : HttpServer :=
  mkHttpServer (socketRecvBuffer_ s) (socketBuffer_ s) (headerProcessor_ s)
    (lastRequestHeader_ s) v (lastContentLength_ s) (keepAlive_ s) (gzip_ s)
    (acceptsPersistentConnection_ s) (acceptsGZip_ s) (username_ s)
    (password_ s) (allowOrigin_ s).
Definition set_lastContentLength (v : Z) (s : HttpServer) : HttpServer :=
  mkHttpServer (socketRecvBuffer_ s) (socketBuffer_ s) (headerProcessor_ s)
    (lastRequestHeader_ s) (lastBody_ s) v (keepAlive_ s) (gzip_ s)
    (acceptsPersistentConnection_ s) (acceptsGZip_ s) (username_ s)
    (password_ s) (allowOrigin_ s).
Definition set_acceptsPersistentConnection (v : bool) (s : HttpServer) : HttpServer :=
  mkHttpServer (socketRecvBuffer_ s) (socketBuffer_ s) (headerProcessor_ s)
    (lastRequestHeader_ s) (lastBody_ s) (lastContentLength_ s) (keepAlive_ s)
    (gzip_ s) v (acceptsGZip_ s) (username_ s) (password_ s) (allowOrigin_ s).
Definition set_acceptsGZip (v : bool) (s : HttpServer) : HttpServer :=
  mkHttpServer (socketRecvBuffer_ s) (socketBuffer_ s) (headerProcessor_ s)
    (lastRequestHeader_ s) (lastBody_ s) (lastContentLength_ s) (keepAlive_ s)
    (gzip_ s) (acceptsPersistentConnection_ s) v (username_ s) (password_ s)
    (allowOrigin_ s).

(** ** Exceptions and the monad of the member functions *)

Inductive exn :=
  | EX_EOF_FROM_PEER        (* DL_ABORT_EX(EX_EOF_FROM_PEER) *)
  | EX_CONTENT_LENGTH       (* DL_ABORT_EX("Content-Length must be positive.") *)
  | EX_MALFORMED_HEADER     (* thrown by getHttpRequestHeader() *)
  | EX_MALFORMED_NUMBER     (* thrown by findAsLLInt() *)
  | EX_ASSERT.              (* no exception of the program: the
                               precondition of shiftBuffer() is violated *)

(** The protocol errors of the specification. *)
Definition isProtocolError (e : exn) : bool :=
  match e with
  | EX_CONTENT_LENGTH | EX_MALFORMED_HEADER | EX_MALFORMED_NUMBER => true
  | _ => false
  end.

Inductive result (A : Type) :=
  | Return (a : A)
  | Throw (e : exn).
Arguments Return {A} a.
Arguments Throw {A} e.

(** A member function: from the object before the call to its result and
    the object after it. *)
Definition M (A : Type) : Type := HttpServer -> result A * HttpServer.

#[export] Instance M_ret : MRet M := fun A a s => (Return a, s).
#[export] Instance M_bind : MBind M := fun A B f m s =>
  match m s with
  | (Return a, s') => f a s'
  | (Throw e, s') => (Throw e, s')
  end.

Definition get : M HttpServer := fun s => (Return s, s).
Definition modify (f : HttpServer -> HttpServer) : M unit := fun s => (Return tt, f s).
Definition throw {A} (e : exn) : M A := fun s => (Throw e, s).

(** ** SocketRecvBuffer *)

(** Modelled from the spec: the incoming byte buffer of section 4.1. *)
Definition bufferEmpty (s : HttpServer) : bool :=
  match socketRecvBuffer_ s with [] => true | _ :: _ => false end.
Definition getBuffer (s : HttpServer) : bytes := socketRecvBuffer_ s.
Definition getBufferLength (s : HttpServer) : Z := Z.of_nat (length (socketRecvBuffer_ s)).

(** [recv()]: one read into the tail of the buffer; the number of bytes
    read. *)
Definition recv (sock : SocketEvent) : M Z := fun s =>
  (Return (Z.of_nat (length (readData sock))),
   set_socketRecvBuffer (socketRecvBuffer_ s ++ readData sock) s).

(** [shiftBuffer(offset)]: drop the first [offset] bytes of the window;
    [offset] must not exceed its length.  What the program does with a
    larger offset is not defined by HttpServer.cc; the model ends the
    call there with [EX_ASSERT], which stands for the violated
    precondition and for no exception that a caller could catch. *)
Definition shiftBuffer (offset : Z) : M unit := fun s =>
  if offset <=? getBufferLength s
  then (Return tt, set_socketRecvBuffer (skipn (Z.to_nat offset) (socketRecvBuffer_ s)) s)
  else (Throw EX_ASSERT, s).

(** [clearBuffer()] *)
Definition clearBuffer : M unit := modify (set_socketRecvBuffer []).

(** Modelled from the spec: [SocketBuffer::pushStr], enqueue one chunk. *)
Definition pushStr (data : string) : M unit :=
  modify (fun s => set_socketBuffer (socketBuffer_ s ++ [data]) s).

(** ** The member functions of HttpServer *)

Section Engine.

(** Code of the repository that HttpServer.cc calls and that lies outside
    it: the request parser of HttpHeaderProcessor, the number parser
    behind [HttpHeader::findAsLLInt], [util::divide] and
    [base64::decode].  The engine is stated for any implementation of
    them; [None] stands for a thrown exception. *)
Variable parseRequest : bytes -> option HttpHeader.
Variable parseLLInt : string -> option Z.
Variable divide : string -> ascii -> string * string.
Variable base64_decode : string -> string.

(** Modelled from the spec: [getHttpRequestHeader()] parses method, path,
    version and fields from the header block; [None]: it throws, the
    request is malformed. *)
Definition getHttpRequestHeader (hp : HttpHeaderProcessor) : option HttpHeader :=
  parseRequest (headerBlock hp).

(** Modelled from the spec: [findAsLLInt(name)] is 0 when the field is
    absent, and the parsed number otherwise; [None]: it throws, the value
    is not a number. *)
Definition findAsLLInt (h : HttpHeader) (name : string) : option Z :=
  let value := find h name in
  if empty value then Some 0 else parseLLInt value.

(** A call that may throw. *)
Definition orThrow {A} (e : exn) (o : option A) : M A :=
  match o with
  | Some a => mret a
  | None => throw e
  end.

(** Lines 126-131 and 190-195: read once when the buffer is empty. *)
Definition recvWhenEmpty (sock : SocketEvent) : M unit :=
  s ← get;
  if bufferEmpty s then
    n ← recv sock;
    if (n =? 0) && negb (wantRead sock) && negb (wantWrite sock)
    then throw EX_EOF_FROM_PEER
    else mret tt
  else mret tt.

(** Lines 170-177: the loop over the tokens of Accept-Encoding. *)
Fixpoint gzipLoop (acceptEncodings : list string) (s : HttpServer) : HttpServer :=
  match acceptEncodings with
  | [] => s
  | i :: rest =>
      if strieq i GZIP then set_acceptsGZip true s   (* break *)
      else gzipLoop rest s
  end.

(** Lines 124-183. *)
Definition receiveRequest (sock : SocketEvent) : M (option HttpHeader) :=
  recvWhenEmpty sock;;
  s ← get;
  modify (set_headerProcessor (update (headerProcessor_ s) (getBuffer s)));;
  s ← get;
  if eoh (headerProcessor_ s) then
    header ← orThrow EX_MALFORMED_HEADER (getHttpRequestHeader (headerProcessor_ s));
    let putbackDataLength := getPutBackDataLength (headerProcessor_ s) in
    shiftBuffer (to_size_t (getBufferLength s - putbackDataLength));;
    modify (set_lastRequestHeader (Some header));;
    modify (set_lastBody ss_reset);;
    n ← orThrow EX_MALFORMED_NUMBER (findAsLLInt header CONTENT_LENGTH);
    modify (set_lastContentLength n);;
    (if n <? 0 then throw EX_CONTENT_LENGTH else mret tt);;
    modify (set_headerProcessor clear);;
    let connection := find header CONNECTION in
    modify (set_acceptsPersistentConnection
              (strifind_is_end connection CLOSE &&
               (String.eqb (getVersion header) HTTP_1_1 ||
                negb (strifind_is_end connection KEEP_ALIVE))));;
    let acceptEnc := find header ACCEPT_ENCODING in
    let acceptEncodings := splitIter acceptEnc "," true in
    modify (set_acceptsGZip false);;
    modify (gzipLoop acceptEncodings);;
    mret (Some header)
  else
    clearBuffer;;
    mret None.

(** Lines 185-203. *)
Definition receiveBody (sock : SocketEvent) : M bool :=
  s ← get;
  if lastContentLength_ s =? 0 then mret true
  else
    recvWhenEmpty sock;;
    s ← get;
    let length :=
      Z.min (getBufferLength s)
            (to_size_t (lastContentLength_ s - tellg (lastBody_ s))) in
    modify (set_lastBody (write (lastBody_ s) (getBuffer s) length));;
    shiftBuffer length;;
    s ← get;
    mret (lastContentLength_ s =? tellp (lastBody_ s)).

(** Lines 205-208. *)
Definition getBody (s : HttpServer) : string :=
  string_of_list_byte (str (lastBody_ s)).

(** Modelled from the spec: [supportsGZip()] and
    [supportsPersistentConnection()] of HttpServer.h: the capability is in
    effect when the server enables it and the request accepts it. *)
Definition supportsGZip (s : HttpServer) : bool := gzip_ s && acceptsGZip_ s.
Definition supportsPersistentConnection (s : HttpServer) : bool :=
  keepAlive_ s && acceptsPersistentConnection_ s.

(** Lines 225-261.  [httpDate] is [Time().toHTTPDate()], the current
    time. *)
Definition feedResponse (httpDate : string) (status : Z)
    (headers text contentType : string) : M unit :=
  s ← get;
  let header :=
    "HTTP/1.1 " +:+ getStatusString status +:+ CRLF +:+
    "Date: " +:+ httpDate +:+ CRLF +:+
    "Content-Length: " +:+ fmt_lu (size text) +:+ CRLF +:+
    "Expires: " +:+ httpDate +:+ CRLF +:+
    "Cache-Control: no-cache" +:+ CRLF in
  let header :=
    if negb (empty contentType)
    then header +:+ "Content-Type: " +:+ contentType +:+ CRLF
    else header in
  let header :=
    if negb (empty (allowOrigin_ s))
    then header +:+ "Access-Control-Allow-Origin: " +:+ allowOrigin_ s +:+ CRLF
    else header in
  let header :=
    if supportsGZip s then header +:+ "Content-Encoding: gzip" +:+ CRLF
    else header in
  let header :=
    if negb (supportsPersistentConnection s)
    then header +:+ "Connection: close" +:+ CRLF
    else header in
  let header := header +:+ headers in
  let header := header +:+ CRLF in
  pushStr header;;
  pushStr text.

(** Lines 287-310.  [None]: the call dereferences the null
    [lastRequestHeader_] (no request has been received yet). *)
Definition authenticate (s : HttpServer) : option bool :=
  if empty (username_ s) then Some true
  else
    match lastRequestHeader_ s with
    | None => None
    | Some lastRequestHeader =>
        let authHeader := find lastRequestHeader AUTHORIZATION in
        if empty authHeader then Some false
        else
          let p := divide authHeader " " in
          if negb (streq (fst p) "Basic") then Some false
          else
            let userpass := base64_decode (snd p) in
            let up := divide userpass ":" in
            Some (streq (fst up) (username_ s) && streq (snd up) (password_ s))
    end.

(** Lines 312-317. *)
Definition setUsernamePassword (username password : string) (s : HttpServer) : HttpServer :=
  mkHttpServer (socketRecvBuffer_ s) (socketBuffer_ s) (headerProcessor_ s)
    (lastRequestHeader_ s) (lastBody_ s) (lastContentLength_ s) (keepAlive_ s)
    (gzip_ s) (acceptsPersistentConnection_ s) (acceptsGZip_ s)
    username password (allowOrigin_ s).

End Engine.

(** ** The other member functions *)

(** Lines 210-213 and 215-218.  [None]: the call dereferences the null
    [lastRequestHeader_]. *)
Definition getMethod (s : HttpServer) : option string :=
  option_map getMethod_ (lastRequestHeader_ s).
Definition getRequestPath (s : HttpServer) : option string :=
  option_map getRequestPath_ (lastRequestHeader_ s).

(** Lines 220-223: the overload without status and header lines. *)
Definition feedResponse200 (httpDate text contentType : string) : M unit :=
  feedResponse httpDate 200 "" text contentType.

(** [s.c_str()] handed to a [%s] conversion: the characters before the
    first NUL. *)
Fixpoint c_str (s : string) : string :=
  match s with
  | EmptyString => EmptyString
  | String c r => if (N_of_ascii c =? 0)%N then EmptyString else String c (c_str r)
  end.

(** [s] contains a NUL character. *)
Fixpoint hasNul (s : string) : bool :=
  match s with
  | EmptyString => false
  | String c r => (N_of_ascii c =? 0)%N || hasNul r
  end.

(** Lines 263-275. *)
Definition feedUpgradeResponse (protocol headers : string) : M unit :=
  let header :=
    "HTTP/1.1 101 Switching Protocols" +:+ CRLF +:+
    "Upgrade: " +:+ c_str protocol +:+ CRLF +:+
    "Connection: Upgrade" +:+ CRLF +:+
    c_str headers +:+
    CRLF in
  pushStr header.

(** ** One implementation of the collaborators *)

(** The engine above is generic in the code outside HttpServer.cc; the
    definitions of this module give one instance, used to run the engine
    on concrete requests. *)
Module Impl.

(** Modelled from the spec: [util::divide(p, first, last, delim)] cuts a
    range at the first [delim]; the second part is empty when there is
    none. *)
Fixpoint divide (s : string) (delim : ascii) : string * string :=
  match s with
  | EmptyString => (EmptyString, EmptyString)
  | String c r =>
      if Ascii.eqb c delim then (EmptyString, r)
      else let (a, b) := divide r delim in (String c a, b)
  end.

Definition digit (c : ascii) : option Z :=
  let n := N_of_ascii c in
  if ((48 <=? n) && (n <=? 57))%N then Some (Z.of_N n - 48) else None.

Fixpoint digits (acc : Z) (s : string) : option Z :=
  match s with
  | EmptyString => Some acc
  | String c r =>
      match digit c with
      | Some d => digits (10 * acc + d) r
      | None => None
      end
  end.

(** Modelled from the spec: the signed decimal number of a field value,
    within the range of [int64_t]. *)
Definition parseLLInt (s : string) : option Z :=
  let in_range (z : Z) :=
    if (- 2 ^ 63 <=? z) && (z <? 2 ^ 63) then Some z else None in
  match stripIter s with
  | EmptyString => None
  | String "-" (String c r) => digits 0 (String c r) ≫= fun z => in_range (- z)
  | String c r => digits 0 (String c r) ≫= in_range
  end.

(** Modelled from the spec: one field line [Name: Value]; the name is
    stored in lower case, the value trimmed. *)
Definition parseField (line : string) : option (string * string) :=
  if Nat.eqb (String.length (fst (divide line ":"))) (String.length line)
  then None
  else let (name, value) := divide line ":" in
       Some (lower (stripIter name), stripIter value).

Fixpoint parseFields (lines : list string) (tbl : gmap string string)
    : option (gmap string string) :=
  match lines with
  | [] => Some tbl
  | line :: rest =>
      match parseField line with
      | Some (name, value) => parseFields rest (<[name := value]> tbl)
      | None => None
      end
  end.

(** Modelled from the spec: the request line [METHOD SP PATH SP VERSION]
    followed by the field lines, each ended by CR LF or LF; anything else
    is malformed. *)
Definition parseRequest (block : bytes) : option HttpHeader :=
  match splitIter (string_of_list_byte block) "010" true with
  | [] => None
  | requestLine :: fieldLines =>
      match splitIter requestLine " " true with
      | [method; path; version] =>
          tbl ← parseFields fieldLines ∅;
          Some (mkHttpHeader method path version tbl)
      | _ => None
      end
  end.

(** The value of a character of the base64 alphabet. *)
Definition b64val (c : ascii) : option N :=
  let n := N_of_ascii c in
  if ((65 <=? n) && (n <=? 90))%N then Some (n - 65)%N
  else if ((97 <=? n) && (n <=? 122))%N then Some (n - 71)%N
  else if ((48 <=? n) && (n <=? 57))%N then Some (n + 4)%N
  else if (n =? 43)%N then Some 62%N
  else if (n =? 47)%N then Some 63%N
  else None.

Definition isPad (c : ascii) : bool := (N_of_ascii c =? 61)%N.

Definition chr (n : N) : ascii := ascii_of_N (n mod 256).

(** The groups of four characters of a base64 text. *)
Fixpoint decodeQuads (s : string) : option string :=
  match s with
  | EmptyString => Some EmptyString
  | String a (String b (String c (String d rest))) =>
      match b64val a, b64val b with
      | Some x, Some y =>
          let o1 := chr (x * 4 + y / 16) in
          if isPad c && isPad d && empty rest
          then Some (String o1 EmptyString)
          else
            match b64val c with
            | Some z =>
                let o2 := chr (y * 16 + z / 4) in
                if isPad d && empty rest
                then Some (String o1 (String o2 EmptyString))
                else
                  match b64val d, decodeQuads rest with
                  | Some w, Some tail =>
                      Some (String o1 (String o2 (String (chr (z * 64 + w)) tail)))
                  | _, _ => None
                  end
            | None => None
            end
      | _, _ => None
      end
  | _ => None
  end.

(** Modelled from the spec: [base64::decode]; a text that is not base64
    decodes to the empty string. *)
Definition base64_decode (s : string) : string :=
  default EmptyString (decodeQuads s).

End Impl.

(** One socket answer carrying [data], with more to come. *)
Definition arrives (data : string) : SocketEvent :=
  mkSocketEvent (list_byte_of_string data) true false.

(** ** The vocabulary of the specification *)

(** The window that [receiveRequest] / [receiveBody] work on: what is
    buffered, or what the one [recv()] delivers when nothing is. *)
Definition window (sock : SocketEvent) (s : HttpServer) : bytes :=
  if bufferEmpty s then readData sock else socketRecvBuffer_ s.

(** The peer has closed: the read of an empty buffer delivers nothing and
    the socket expects neither a read nor a write. *)
Definition peerClosed (sock : SocketEvent) (s : HttpServer) : bool :=
  bufferEmpty s && Nat.eqb (length (readData sock)) 0
  && negb (wantRead sock) && negb (wantWrite sock).

(** The bytes held by the header processor once the window is fed to it. *)
Definition accumulated (sock : SocketEvent) (s : HttpServer) : bytes :=
  buf_ (headerProcessor_ s) ++ window sock s.

(** The tokens of a comma-separated field value, trimmed. *)
Definition tokens (value : string) : list string := splitIter value "," true.

(** [tok] is one of the tokens of [value], ignoring case. *)
Definition hasToken (value tok : string) : bool :=
  existsb (fun t => strieq t tok) (tokens value).

(** Keep-alive as the specification words it, on the token list of the
    Connection field. *)
Definition keepAlive_by_tokens (h : HttpHeader) : bool :=
  negb (hasToken (find h CONNECTION) CLOSE)
  && (String.eqb (getVersion h) HTTP_1_1 || hasToken (find h CONNECTION) KEEP_ALIVE).

(** [t] occurs in [s] as a substring, ignoring case. *)
Definition isubstring (t s : string) : Prop :=
  exists pre post, lower s = pre +:+ lower t +:+ post.

(** The canonical reason phrases of the status codes of the table. *)
Definition reasonPhrase (status : Z) : option string :=
  match status with
  | 100 => Some "Continue"
  | 101 => Some "Switching Protocols"
  | 200 => Some "OK"
  | 201 => Some "Created"
  | 202 => Some "Accepted"
  | 203 => Some "Non-Authoritative Information"
  | 204 => Some "No Content"
  | 205 => Some "Reset Content"
  | 206 => Some "Partial Content"
  | 300 => Some "Multiple Choices"
  | 301 => Some "Moved Permanently"
  | 302 => Some "Found"
  | 303 => Some "See Other"
  | 304 => Some "Not Modified"
  | 305 => Some "Use Proxy"
  | 307 => Some "Temporary Redirect"
  | 400 => Some "Bad Request"
  | 401 => Some "Unauthorized"
  | 402 => Some "Payment Required"
  | 403 => Some "Forbidden"
  | 404 => Some "Not Found"
  | 405 => Some "Method Not Allowed"
  | 406 => Some "Not Acceptable"
  | 407 => Some "Proxy Authentication Required"
  | 408 => Some "Request Timeout"
  | 409 => Some "Conflict"
  | 410 => Some "Gone"
  | 411 => Some "Length Required"
  | 412 => Some "Precondition Failed"
  | 413 => Some "Request Entity Too Large"
  | 414 => Some "Request-URI Too Long"
  | 415 => Some "Unsupported Media Type"
  | 416 => Some "Requested Range Not Satisfiable"
  | 417 => Some "Expectation Failed"
  | 426 => Some "Upgrade Required"
  | 500 => Some "Internal Server Error"
  | 501 => Some "Not Implemented"
  | 502 => Some "Bad Gateway"
  | 503 => Some "Service Unavailable"
  | 504 => Some "Gateway Timeout"
  | 505 => Some "HTTP Version Not Supported"
  | _ => None
  end.

(** The status line as the specification words it: the number, a space,
    and the reason phrase, empty for a code outside the table. *)
Definition statusLine_by_spec (status : Z) : string :=
  "HTTP/1.1 " +:+ fmt_lu (Z.to_N status) +:+ " "
  +:+ default EmptyString (reasonPhrase status) +:+ CRLF.

(** The status line the code writes. *)
Definition statusLine (status : Z) : string :=
  match reasonPhrase status with
  | Some reason =>
      "HTTP/1.1 " +:+ fmt_lu (Z.to_N status) +:+ " " +:+ reason +:+ CRLF
  | None => "HTTP/1.1 " +:+ CRLF
  end.

(** A header line that is present or not. *)
Definition optional (present : bool) (line : string) : list string :=
  if present then [line] else [].

(** The lines of a response before the caller's own header lines, in
    order. *)
Definition responseLines (s : HttpServer) (httpDate : string) (status : Z)
    (text contentType : string) : list string :=
  [ "HTTP/1.1 " +:+ getStatusString status;
    "Date: " +:+ httpDate;
    "Content-Length: " +:+ fmt_lu (size text);
    "Expires: " +:+ httpDate;
    "Cache-Control: no-cache" ]
  ++ optional (negb (empty contentType)) ("Content-Type: " +:+ contentType)
  ++ optional (negb (empty (allowOrigin_ s)))
       ("Access-Control-Allow-Origin: " +:+ allowOrigin_ s)
  ++ optional (supportsGZip s) "Content-Encoding: gzip"
  ++ optional (negb (supportsPersistentConnection s)) "Connection: close".

(** Each line followed by CR LF, one after the other. *)
Fixpoint crlfLines (lines : list string) : string :=
  match lines with
  | [] => EmptyString
  | line :: rest => line +:+ CRLF +:+ crlfLines rest
  end.

(** The response as one byte sequence. *)
Definition responseBytes (s : HttpServer) (httpDate : string) (status : Z)
    (headers text contentType : string) : string :=
  crlfLines (responseLines s httpDate status text contentType)
  +:+ headers +:+ CRLF +:+ text.

(** The bytes queued for sending, chunk after chunk. *)
Definition queued (s : HttpServer) : string := String.concat "" (socketBuffer_ s).

Section Callers.

Variable parseRequest : bytes -> option HttpHeader.
Variable parseLLInt : string -> option Z.

(** The caller's loop: one [receiveRequest] per readiness event, until a
    header is returned. *)
Fixpoint retryReceiveRequest (socks : list SocketEvent) : M (option HttpHeader) :=
  match socks with
  | [] => mret None
  | sock :: rest =>
      r ← receiveRequest parseRequest parseLLInt sock;
      match r with
      | Some header => mret (Some header)
      | None => retryReceiveRequest rest
      end
  end.

End Callers.

(** The calls a user of the object makes. *)
Inductive call :=
  | CallReceiveRequest (sock : SocketEvent)
  | CallReceiveBody (sock : SocketEvent)
  | CallFeedResponse (httpDate : string) (status : Z)
      (headers text contentType : string)
  | CallFeedResponse200 (httpDate text contentType : string)
  | CallFeedUpgradeResponse (protocol headers : string)
  | CallSetUsernamePassword (username password : string).

Section Calls.

Variable parseRequest : bytes -> option HttpHeader.
Variable parseLLInt : string -> option Z.

Definition perform (c : call) : M unit :=
  match c with
  | CallReceiveRequest sock => receiveRequest parseRequest parseLLInt sock;; mret tt
  | CallReceiveBody sock => receiveBody sock;; mret tt
  | CallFeedResponse httpDate status headers text contentType =>
      feedResponse httpDate status headers text contentType
  | CallFeedResponse200 httpDate text contentType =>
      feedResponse200 httpDate text contentType
  | CallFeedUpgradeResponse protocol headers => feedUpgradeResponse protocol headers
  | CallSetUsernamePassword username password =>
      modify (setUsernamePassword username password)
  end.

(** The state between calls, as long as none throws: the body has never
    been read back, the header processor holds no complete header, and
    once a request has been returned the stored length is the
    Content-Length of the last request header, and not negative. *)
Definition consistent (s : HttpServer) : Prop :=
  tellg (lastBody_ s) = 0
  /\ eoh (headerProcessor_ s) = false
  /\ (forall h, lastRequestHeader_ s = Some h ->
      findAsLLInt parseLLInt h CONTENT_LENGTH = Some (lastContentLength_ s)
      /\ 0 <= lastContentLength_ s).

(** A sequence of calls; it stops at the first exception. *)
Fixpoint performAll (cs : list call) : M unit :=
  match cs with
  | [] => mret tt
  | c :: rest => perform c;; performAll rest
  end.

End Calls.

(** A byte sequence delivered chunk by chunk: one socket answer per
    chunk. *)
Definition delivers (chunks : list bytes) : list SocketEvent :=
  map (fun c => mkSocketEvent c true false) chunks.

(** The result a sequence of accumulated bytes stands for: no header
    while the marker is missing, the parsed header of the block before the
    marker, or the protocol error of a malformed request. *)
Definition requestOutcome (parseRequest : bytes -> option HttpHeader)
    (parseLLInt : string -> option Z) (acc : bytes) : result (option HttpHeader) :=
  match find_eoh acc with
  | None => Return None
  | Some (h, _) =>
      match parseRequest (firstn h acc) with
      | None => Throw EX_MALFORMED_HEADER
      | Some header =>
          match findAsLLInt parseLLInt header CONTENT_LENGTH with
          | None => Throw EX_MALFORMED_NUMBER
          | Some n => if n <? 0 then Throw EX_CONTENT_LENGTH else Return (Some header)
          end
      end
  end.

(** ** Concrete requests *)

(** The example of the specification: credentials [alice:secret]. *)
Definition alice_request (authorization : string) : HttpHeader :=
  mkHttpHeader "GET" "/" "HTTP/1.1" {[ AUTHORIZATION := authorization ]}.

Definition alice_server (authorization : string) : HttpServer :=
  setUsernamePassword "alice" "secret"
    (set_lastRequestHeader (Some (alice_request authorization)) new_HttpServer).





(** A fresh server that is handed [request] by one read. *)
Definition after_request (request : string) : result (option HttpHeader) * HttpServer :=
  receiveRequest Impl.parseRequest Impl.parseLLInt (arrives request) new_HttpServer.

Definition request_keepalive_10 : string :=
  "GET / HTTP/1.0" +:+ CRLF +:+ "Connection: keep-alive" +:+ CRLF +:+ CRLF.
Definition header_keepalive_10 : HttpHeader :=
  mkHttpHeader "GET" "/" "HTTP/1.0" {[ CONNECTION := "keep-alive" ]}.

(** A Connection field in which [close] occurs inside a longer token. *)
Definition request_close_hint : string :=
  "GET / HTTP/1.0" +:+ CRLF
  +:+ "Connection: keep-alive, x-close-hint" +:+ CRLF +:+ CRLF.
Definition header_close_hint : HttpHeader :=
  mkHttpHeader "GET" "/" "HTTP/1.0" {[ CONNECTION := "keep-alive, x-close-hint" ]}.

Definition request_gzip : string :=
  "GET / HTTP/1.1" +:+ CRLF +:+ "Accept-Encoding: deflate, gzip" +:+ CRLF +:+ CRLF.
Definition header_gzip : HttpHeader :=
  mkHttpHeader "GET" "/" "HTTP/1.1" {[ ACCEPT_ENCODING := "deflate, gzip" ]}.

(** A request with a body of five bytes, of which three come with the
    header. *)
Definition request_post5 : string :=
  "POST /rpc HTTP/1.1" +:+ CRLF +:+ "Content-Length: 5" +:+ CRLF +:+ CRLF +:+ "abc".
Definition header_post5 : HttpHeader :=
  mkHttpHeader "POST" "/rpc" "HTTP/1.1" {[ CONTENT_LENGTH := "5" ]}.

(** The next read: the last two bytes of the body, then the next
    request on the same connection. *)
Definition next_read : string := "deGET / HTTP/1.1" +:+ CRLF +:+ CRLF.

(** The request, then two calls of [receiveBody]: the first finds [abc]
    buffered, the second reads [next_read]. *)
Definition post5_session : M (bool * bool) :=
  receiveRequest Impl.parseRequest Impl.parseLLInt (arrives request_post5);;
  b1 ← receiveBody (arrives "");
  b2 ← receiveBody (arrives next_read);
  mret (b1, b2).

Definition post5_first_body : M bool :=
  receiveRequest Impl.parseRequest Impl.parseLLInt (arrives request_post5);;
  receiveBody (arrives "").

Definition request_negative : string :=
  "POST /rpc HTTP/1.1" +:+ CRLF +:+ "Content-Length: -1" +:+ CRLF +:+ CRLF +:+ "abc".
Definition header_negative : HttpHeader :=
  mkHttpHeader "POST" "/rpc" "HTTP/1.1" {[ CONTENT_LENGTH := "-1" ]}.


(** [request_keepalive_10] cut into three reads, the last cut inside the
    marker. *)
Definition keepalive_10_chunks : list SocketEvent :=
  [ arrives "GET / HT";
    arrives ("TP/1.0" +:+ CRLF +:+ "Connection: keep-alive" +:+ String "013" "");
    arrives (String "010" CRLF) ].

(** Two requests without a body in a single read. *)
Definition two_requests : string :=
  "GET /a HTTP/1.1" +:+ CRLF +:+ CRLF +:+ "GET /b HTTP/1.1" +:+ CRLF +:+ CRLF.
Definition header_a : HttpHeader := mkHttpHeader "GET" "/a" "HTTP/1.1" ∅.
Definition header_b : HttpHeader := mkHttpHeader "GET" "/b" "HTTP/1.1" ∅.

(** A request whose body comes whole with the header, followed by the
    start of the next request. *)
Definition request_post3 : string :=
  "POST /rpc HTTP/1.1" +:+ CRLF +:+ "Content-Length: 3" +:+ CRLF +:+ CRLF
  +:+ "abcGET".
Definition header_post3 : HttpHeader :=
  mkHttpHeader "POST" "/rpc" "HTTP/1.1" {[ CONTENT_LENGTH := "3" ]}.

(** A request line with two parts only. *)
Definition request_malformed : string := "GET /" +:+ CRLF +:+ CRLF.

(** The socket has nothing and expects nothing: the peer has closed. *)
Definition closed : SocketEvent := mkSocketEvent [] false false.
(** The socket has nothing yet. *)
Definition idle : SocketEvent := mkSocketEvent [] true false.

(** [receiveBody] on the object that [request_negative] leaves behind. *)
Definition body_after_negative : result bool * HttpServer :=
  receiveBody closed (snd (after_request request_negative)).

(** The server after [request_post5]: [abc] is buffered, five bytes are
    expected. *)
Definition post5_server : HttpServer := snd (after_request request_post5).

(** A server that expects a body and has nothing buffered. *)
Definition expecting_server : HttpServer := set_lastContentLength 5 new_HttpServer.

(** A session: a request, its body in two reads, and the response. *)
Definition a_session : list call :=
  [ CallSetUsernamePassword "alice" "secret";
    CallReceiveRequest (arrives "POST /rpc HT");
    CallReceiveRequest (arrives ("TP/1.1" +:+ CRLF +:+ "Content-Length: 5"
                                 +:+ CRLF +:+ CRLF +:+ "abc"));
    CallReceiveBody idle;
    CallReceiveBody (arrives "de");
    CallFeedResponse200 "Thu, 01 Jan 1970 00:00:00 GMT" "ok" "text/plain" ].

(** * Properties *)

(** ** Strings and lists *)

Lemma app_cons_s (c : ascii) (a b : string) :
  String c a +:+ b = String c (a +:+ b).
Proof. reflexivity. Qed.

Lemma app_nil_l_s (a : string) : EmptyString +:+ a = a.
Proof. reflexivity. Qed.

Lemma app_nil_r_s (a : string) : a +:+ EmptyString = a.
Proof.
  induction a as [|c a IH]; [reflexivity | now rewrite app_cons_s, IH].
Qed.

Lemma app_assoc_s (a b c : string) : (a +:+ b) +:+ c = a +:+ (b +:+ c).
Proof.
  induction a as [|x a IH]; [reflexivity | now rewrite !app_cons_s, IH].
Qed.

Lemma length_app_s (a b : string) :
  String.length (a +:+ b) = (String.length a + String.length b)%nat.
Proof.
  induction a as [|x a IH]; [reflexivity |].
  rewrite app_cons_s. simpl. now rewrite IH.
Qed.

Lemma lower_app (a b : string) : lower (a +:+ b) = lower a +:+ lower b.
Proof.
  induction a as [|x a IH]; [reflexivity |].
  rewrite app_cons_s. simpl. now rewrite IH, app_cons_s.
Qed.



Lemma concat_cons (x : string) (l : list string) :
  String.concat "" (x :: l) = x +:+ String.concat "" l.
Proof. destruct l; simpl; [now rewrite app_nil_r_s | reflexivity]. Qed.

Lemma concat_app (l1 l2 : list string) :
  String.concat "" (l1 ++ l2) = String.concat "" l1 +:+ String.concat "" l2.
Proof.
  induction l1 as [|x l1 IH]; [reflexivity |].
  change ((x :: l1) ++ l2) with (x :: (l1 ++ l2)).
  now rewrite !concat_cons, IH, app_assoc_s.
Qed.

(** ** The status line *)

Lemma getStatusString_reason (status : Z) :
  getStatusString status =
  match reasonPhrase status with
  | Some reason => fmt_lu (Z.to_N status) +:+ " " +:+ reason
  | None => EmptyString
  end.
Proof.
  destruct status as [|p|p]; try reflexivity.
  do 10 (try reflexivity; destruct p as [p|p|]); reflexivity.
Qed.

(** What [feedResponse] does, in one equation: it returns normally and
    the object changes in its send queue only, which gains the header
    chunk and the body chunk. *)
Lemma feedResponse_run s httpDate status headers text contentType :
  feedResponse httpDate status headers text contentType s =
  (Return tt,
   set_socketBuffer
     (socketBuffer_ s ++
      [crlfLines (responseLines s httpDate status text contentType)
         +:+ headers +:+ CRLF; text]) s).
Proof.
  unfold feedResponse, responseLines, pushStr, modify, get.
  unfold mbind, M_bind; cbn -[CRLF getStatusString fmt_lu].
  rewrite <- (app_assoc (socketBuffer_ s)). cbn [app].
  destruct (empty contentType), (empty (allowOrigin_ s)), (supportsGZip s),
    (supportsPersistentConnection s);
    cbn [negb optional app crlfLines];
    rewrite ?app_assoc_s, ?app_nil_l_s; reflexivity.
Qed.

(** C8 (as amended): the status line written by [feedResponse] is
    [HTTP/1.1 <status> <reason>] followed by CR LF for every status code
    of the table, with its canonical reason phrase; for every other status
    code the status string is empty, so the line is [HTTP/1.1 ] followed
    by CR LF, with neither the number nor a reason phrase. *)
Theorem feedResponse_statusLine s httpDate status headers text contentType :
  exists rest,
    socketBuffer_ (snd (feedResponse httpDate status headers text contentType s))
    = socketBuffer_ s ++ [statusLine status +:+ rest; text].
Proof.
  rewrite feedResponse_run. cbn [snd set_socketBuffer socketBuffer_].
  unfold responseLines, statusLine. cbn [app crlfLines].
  rewrite getStatusString_reason.
  destruct (reasonPhrase status) as [reason|]; eexists;
    rewrite ?app_assoc_s, ?app_nil_l_s; reflexivity.
Qed.

(** C8, the claim as worded fails: status 306 is not in the table, and
    the line written is [HTTP/1.1 ] CR LF, not [HTTP/1.1 306 ] CR LF. *)
Lemma feedResponse_statusLine_306 :
  statusLine_by_spec 306 = "HTTP/1.1 306 " +:+ CRLF
  /\ socketBuffer_ (snd (feedResponse "Thu, 01 Jan 1970 00:00:00 GMT" 306 "" ""
                           "" new_HttpServer))
     = ["HTTP/1.1 " +:+ CRLF
        +:+ "Date: Thu, 01 Jan 1970 00:00:00 GMT" +:+ CRLF
        +:+ "Content-Length: 0" +:+ CRLF
        +:+ "Expires: Thu, 01 Jan 1970 00:00:00 GMT" +:+ CRLF
        +:+ "Cache-Control: no-cache" +:+ CRLF +:+ CRLF; ""]
  /\ ~ exists rest,
       socketBuffer_ (snd (feedResponse "Thu, 01 Jan 1970 00:00:00 GMT" 306 "" ""
                             "" new_HttpServer))
       = [statusLine_by_spec 306 +:+ rest; ""].
Proof.
  split; [reflexivity |]. split; [reflexivity |].
  intros [rest H]. vm_compute in H. discriminate H.
Qed.

(** ** The response *)

(** C7: [feedResponse] performs no input or output: it returns normally
    and changes the send queue only.  The queue gains the status line, the
    headers Date, Content-Length, Expires, Cache-Control, then Content-Type
    (iff [contentType] is not empty), Access-Control-Allow-Origin (iff
    configured), Content-Encoding: gzip (iff gzip is in effect) and
    Connection: close (iff the persistent connection is not in effect),
    then the caller's header lines, an empty line, and [text] unchanged;
    Content-Length is the length of [text] in decimal. *)
Theorem feedResponse_bytes s httpDate status headers text contentType :
  let r := feedResponse httpDate status headers text contentType s in
  fst r = Return tt
  /\ set_socketBuffer (socketBuffer_ (snd r)) s = snd r
  /\ queued (snd r)
     = queued s +:+ responseBytes s httpDate status headers text contentType
  /\ responseBytes s httpDate status headers text contentType
     = ("HTTP/1.1 " +:+ getStatusString status +:+ CRLF)
       +:+ ("Date: " +:+ httpDate +:+ CRLF)
       +:+ ("Content-Length: " +:+ fmt_lu (N.of_nat (String.length text)) +:+ CRLF)
       +:+ ("Expires: " +:+ httpDate +:+ CRLF)
       +:+ ("Cache-Control: no-cache" +:+ CRLF)
       +:+ (if empty contentType then ""
            else "Content-Type: " +:+ contentType +:+ CRLF)
       +:+ (if empty (allowOrigin_ s) then ""
            else "Access-Control-Allow-Origin: " +:+ allowOrigin_ s +:+ CRLF)
       +:+ (if supportsGZip s then "Content-Encoding: gzip" +:+ CRLF else "")
       +:+ (if supportsPersistentConnection s then ""
            else "Connection: close" +:+ CRLF)
       +:+ headers +:+ CRLF +:+ text.
Proof.
  cbv zeta. rewrite feedResponse_run. cbn [fst snd].
  split; [reflexivity |]. split; [reflexivity |]. split.
  - unfold queued, responseBytes. cbn [socketBuffer_ set_socketBuffer].
    rewrite concat_app, !concat_cons. cbn [String.concat].
    now rewrite app_nil_r_s, !app_assoc_s.
  - unfold responseBytes, responseLines, size.
    destruct (empty contentType), (empty (allowOrigin_ s)), (supportsGZip s),
      (supportsPersistentConnection s);
      cbn [negb optional app crlfLines];
      rewrite ?app_assoc_s, ?app_nil_l_s; reflexivity.
Qed.

(** The example of the specification: [feedResponse(200, "", "hello",
    "text/plain")] on a fresh server. *)
Example feedResponse_hello :
  queued (snd (feedResponse "Thu, 01 Jan 1970 00:00:00 GMT" 200 "" "hello"
                 "text/plain" new_HttpServer))
  = "HTTP/1.1 200 OK" +:+ CRLF
    +:+ "Date: Thu, 01 Jan 1970 00:00:00 GMT" +:+ CRLF
    +:+ "Content-Length: 5" +:+ CRLF
    +:+ "Expires: Thu, 01 Jan 1970 00:00:00 GMT" +:+ CRLF
    +:+ "Cache-Control: no-cache" +:+ CRLF
    +:+ "Content-Type: text/plain" +:+ CRLF
    +:+ CRLF +:+ "hello".
Proof. reflexivity. Qed.

(** ** Authentication *)

Section Authentication.

Variable divide : string -> ascii -> string * string.
Variable base64_decode : string -> string.


(** C10: with an empty user name, [authenticate] answers true whatever
    the password and whatever the last request (even none), exactly as on
    a server whose credentials were never set. *)
Theorem authenticate_empty_username (s : HttpServer) (password : string) :
  authenticate divide base64_decode (setUsernamePassword "" password s) = Some true
  /\ authenticate divide base64_decode new_HttpServer = Some true.
Proof. split; reflexivity. Qed.


End Authentication.

(** *** The cut at the first delimiter *)







Example authenticate_alice :
  authenticate Impl.divide Impl.base64_decode
    (alice_server "Basic YWxpY2U6c2VjcmV0") = Some true
  /\ authenticate Impl.divide Impl.base64_decode
       (alice_server "Basic YWxpY2U6d3Jvbmc=") = Some false
  /\ authenticate Impl.divide Impl.base64_decode
       (alice_server "Digest YWxpY2U6c2VjcmV0") = Some false
  /\ authenticate Impl.divide Impl.base64_decode (alice_server "") = Some false.
Proof. repeat split; vm_compute; reflexivity. Qed.

(** ** Searching without regard to case *)

Example strifind_ex : strifind "Keep-Alive, Upgrade" CLOSE = 19%nat
  /\ strifind "Keep-Alive, Upgrade" KEEP_ALIVE = 0%nat
  /\ strifind "x, CLOSE" CLOSE = 3%nat.
Proof. repeat split; reflexivity. Qed.

Example splitIter_ex :
  splitIter " deflate , gzip,,x " "," true = ["deflate"; "gzip"; "x"].
Proof. reflexivity. Qed.

Lemma iprefix_spec (t s : string) :
  iprefix t s = true <-> exists post, lower s = lower t +:+ post.
Proof.
  revert s. induction t as [|a t IH]; intros s.
  - split; [exists (lower s); reflexivity | now destruct s].
  - destruct s as [|b s]; cbn [iprefix lower].
    + split; [discriminate | intros [post H]; discriminate H].
    + rewrite andb_true_iff, Ascii.eqb_eq, IH. split.
      * intros [-> [post ->]]. now exists post.
      * intros [post H]. rewrite app_cons_s in H. injection H as -> ->.
        split; [reflexivity | now exists post].
Qed.

Lemma strifind_le (s t : string) : (strifind s t <= String.length s)%nat.
Proof.
  induction s as [|c s IH]; cbn [strifind String.length]; [lia |].
  destruct (iprefix t (String c s)); lia.
Qed.

Lemma strifind_found (s t : string) :
  (strifind s t < String.length s)%nat -> isubstring t s.
Proof.
  induction s as [|c s IH]; cbn [strifind String.length]; [lia |].
  destruct (iprefix t (String c s)) eqn:E; intros H.
  - apply iprefix_spec in E as [post E]. exists EmptyString, post. exact E.
  - destruct IH as (pre & post & E'); [lia |].
    exists (String (tolower c) pre), post. cbn [lower]. now rewrite E', app_cons_s.
Qed.

Lemma strifind_complete (s t : string) :
  t <> EmptyString -> isubstring t s -> (strifind s t < String.length s)%nat.
Proof.
  intros Ht (pre & post & E). revert pre E.
  induction s as [|c s IH]; intros pre E.
  - destruct t; [congruence |]. destruct pre; discriminate E.
  - cbn [strifind String.length].
    destruct (iprefix t (String c s)) eqn:Ep; [lia |].
    destruct pre as [|x pre].
    + rewrite app_nil_l_s in E.
      assert (iprefix t (String c s) = true) by (apply iprefix_spec; eauto).
      congruence.
    + cbn [lower] in E. rewrite app_cons_s in E. injection E as _ E.
      specialize (IH pre E). lia.
Qed.

Lemma strifind_is_end_iff (s t : string) :
  t <> EmptyString -> strifind_is_end s t = true <-> ~ isubstring t s.
Proof.
  intros Ht. unfold strifind_is_end. rewrite Nat.eqb_eq. split.
  - intros E H. apply (strifind_complete s t Ht) in H. lia.
  - intros H. pose proof (strifind_le s t).
    destruct (Nat.eq_dec (strifind s t) (String.length s)) as [E|E]; [exact E |].
    exfalso. apply H, strifind_found. lia.
Qed.

(** ** The flags derived from a request *)

Lemma gzipLoop_acceptsGZip (l : list string) (s : HttpServer) :
  acceptsGZip_ (gzipLoop l s) = existsb (fun t => strieq t GZIP) l || acceptsGZip_ s.
Proof.
  induction l as [|i l IH]; cbn [gzipLoop existsb]; [reflexivity |].
  destruct (strieq i GZIP); [reflexivity | exact IH].
Qed.

Lemma gzipLoop_acceptsPersistentConnection (l : list string) (s : HttpServer) :
  acceptsPersistentConnection_ (gzipLoop l s) = acceptsPersistentConnection_ s.
Proof.
  induction l as [|i l IH]; cbn [gzipLoop]; [reflexivity |].
  destruct (strieq i GZIP); [reflexivity | exact IH].
Qed.


(** ** The end-of-headers marker *)

Lemma starts_with_app (p l r : bytes) :
  starts_with p l = true -> starts_with p (l ++ r) = true.
Proof.
  revert l. induction p as [|a p IH]; intros [|b l]; cbn; try congruence.
  rewrite !andb_true_iff. intros [-> H]. auto.
Qed.

Lemma starts_with_short (p l r : bytes) :
  (length p <= length l)%nat ->
  starts_with p (l ++ r) = true -> starts_with p l = true.
Proof.
  revert l. induction p as [|a p IH]; intros [|b l]; cbn; try congruence; try lia.
  rewrite !andb_true_iff. intros Hl [-> H]. split; [reflexivity |].
  apply IH; [lia | exact H].
Qed.

Lemma starts_with_eq (p l : bytes) :
  starts_with p l = true -> l = p ++ skipn (length p) l.
Proof.
  revert l. induction p as [|a p IH]; intros [|b l]; cbn; try congruence.
  rewrite andb_true_iff. intros [Hab H].
  apply Byte.byte_dec_bl in Hab. subst b. f_equal. now apply IH.
Qed.

(** The marker found is a blank line, and it lies inside the bytes. *)
Lemma find_eoh_marker (l : bytes) (h e : nat) :
  find_eoh l = Some (h, e) ->
  exists marker,
    (marker = [CR; LF; CR; LF] \/ marker = [LF; LF])
    /\ e = (h + length marker)%nat
    /\ l = firstn h l ++ marker ++ skipn e l.
Proof.
  revert h e. induction l as [|x l IH]; intros h e; [discriminate |].
  cbn [find_eoh].
  destruct (starts_with [CR; LF; CR; LF] (x :: l)) eqn:E4.
  { intros [= <- <-]. exists [CR; LF; CR; LF]. repeat split; [now left |].
    now apply starts_with_eq in E4. }
  destruct (starts_with [LF; LF] (x :: l)) eqn:E2.
  { intros [= <- <-]. exists [LF; LF]. repeat split; [now right |].
    now apply starts_with_eq in E2. }
  destruct (find_eoh l) as [[h' e']|]; [| discriminate].
  intros [= <- <-]. destruct (IH h' e' eq_refl) as (marker & Hm & He & Hl).
  exists marker. repeat split; [exact Hm | lia |].
  cbn [firstn skipn app]. now f_equal.
Qed.

Lemma find_eoh_bounds (l : bytes) (h e : nat) :
  find_eoh l = Some (h, e) -> (h < e <= length l)%nat.
Proof.
  intros H. destruct (find_eoh_marker l h e H) as (marker & Hm & He & Hl).
  apply (f_equal (@length byte)) in Hl.
  rewrite !length_app, length_firstn, length_skipn in Hl.
  destruct Hm as [-> | ->]; cbn [length] in *; lia.
Qed.

Lemma starts_with_app_inv (p l r : bytes) :
  starts_with p (l ++ r) = true ->
  starts_with p l = true \/ (length l < length p)%nat.
Proof.
  intros H. destruct (le_lt_dec (length p) (length l)) as [Hl | Hl].
  - left. now apply starts_with_short in H.
  - now right.
Qed.

(** Later bytes do not move the marker. *)
Lemma find_eoh_app (l r : bytes) (h e : nat) :
  find_eoh l = Some (h, e) -> find_eoh (l ++ r) = Some (h, e).
Proof.
  revert h e. induction l as [|x l IH]; intros h e; [discriminate |].
  cbn [find_eoh app]. change (x :: l ++ r) with ((x :: l) ++ r).
  destruct (starts_with [CR; LF; CR; LF] (x :: l)) eqn:E4.
  { intros [= <- <-]. now rewrite (starts_with_app _ _ r E4). }
  destruct (starts_with [LF; LF] (x :: l)) eqn:E2.
  { intros [= <- <-]. rewrite (starts_with_app _ _ r E2).
    destruct (starts_with [CR; LF; CR; LF] ((x :: l) ++ r)) eqn:E4'; [| reflexivity].
    exfalso. cbn [starts_with app] in E2, E4'. apply andb_true_iff in E2 as [Hx _].
    apply andb_true_iff in E4' as [Hx' _].
    apply Byte.byte_dec_bl in Hx, Hx'. unfold CR, LF in *. congruence. }
  destruct (find_eoh l) as [[h' e']|] eqn:El; [| discriminate].
  intros [= <- <-]. rewrite (IH h' e' eq_refl).
  pose proof (find_eoh_bounds l h' e' El) as Hb.
  destruct (starts_with [CR; LF; CR; LF] ((x :: l) ++ r)) eqn:E4'.
  { exfalso. destruct (starts_with_app_inv _ _ _ E4') as [H | H]; [congruence |].
    destruct (find_eoh_marker l h' e' El) as (marker & Hm & He & Hl).
    cbn [length] in H.
    assert (h' = 0%nat /\ marker = [LF; LF]) as [-> ->]
      by (destruct Hm as [-> | ->]; cbn [length] in He; split; try lia; reflexivity).
    cbn [firstn app] in Hl. rewrite Hl in E4'. cbn [starts_with app] in E4'.
    apply andb_true_iff in E4' as [_ E]. apply andb_true_iff in E as [_ E].
    apply andb_true_iff in E as [E _]. vm_compute in E. discriminate E. }
  destruct (starts_with [LF; LF] ((x :: l) ++ r)) eqn:E2'; [| reflexivity].
  exfalso. destruct (starts_with_app_inv _ _ _ E2') as [H | H]; [congruence |].
  cbn [length] in H. lia.
Qed.

(** A marker that appears when bytes are added ends among them. *)
Lemma find_eoh_new (l r : bytes) (h e : nat) :
  find_eoh l = None -> find_eoh (l ++ r) = Some (h, e) -> (length l < e)%nat.
Proof.
  intros Hn Hs. destruct (le_lt_dec e (length l)) as [Hle | Hlt]; [| exact Hlt].
  exfalso.
  destruct (find_eoh_marker _ h e Hs) as (marker & Hm & He & Hl).
  revert h e Hs Hle marker Hm He Hl.
  induction l as [|x l IH]; intros h e Hs Hle marker Hm He Hl.
  - cbn [length] in Hle. destruct Hm as [-> | ->]; cbn [length] in He; lia.
  - cbn [find_eoh] in Hn. cbn [find_eoh app] in Hs.
    change (x :: l ++ r) with ((x :: l) ++ r) in Hs.
    destruct (starts_with [CR; LF; CR; LF] (x :: l)) eqn:E4; [discriminate |].
    destruct (starts_with [LF; LF] (x :: l)) eqn:E2; [discriminate |].
    destruct (find_eoh l) as [[? ?]|] eqn:El; [discriminate |].
    destruct (starts_with [CR; LF; CR; LF] ((x :: l) ++ r)) eqn:E4'.
    { injection Hs as <- <-.
      destruct (starts_with_app_inv _ _ _ E4') as [H | H]; [congruence |].
      cbn [length] in H, Hle. lia. }
    destruct (starts_with [LF; LF] ((x :: l) ++ r)) eqn:E2'.
    { injection Hs as <- <-.
      destruct (starts_with_app_inv _ _ _ E2') as [H | H]; [congruence |].
      cbn [length] in H, Hle. lia. }
    destruct (find_eoh (l ++ r)) as [[h' e']|] eqn:Elr; [| discriminate].
    injection Hs as <- <-.
    destruct (find_eoh_marker _ h' e' Elr) as (marker' & Hm' & He' & Hl').
    apply (IH eq_refl h' e' eq_refl) with (marker := marker'); auto.
    cbn [length] in Hle. lia.
Qed.

(** ** Receiving a request *)

Section Receive.

Variable parseRequest : bytes -> option HttpHeader.
Variable parseLLInt : string -> option Z.

Lemma bufferEmpty_true s : bufferEmpty s = true <-> socketRecvBuffer_ s = [].
Proof. unfold bufferEmpty. destruct (socketRecvBuffer_ s); split; congruence. Qed.

Lemma recvWhenEmpty_run sock s :
  recvWhenEmpty sock s =
  (if peerClosed sock s then Throw EX_EOF_FROM_PEER else Return tt,
   if bufferEmpty s then set_socketRecvBuffer (readData sock) s else s).
Proof.
  unfold recvWhenEmpty, peerClosed, recv, get, throw.
  unfold mbind, M_bind, mret, M_ret.
  destruct (bufferEmpty s) eqn:E; [| reflexivity].
  apply bufferEmpty_true in E. rewrite E. cbn [app andb].
  replace (Z.of_nat (length (readData sock)) =? 0)
    with (Nat.eqb (length (readData sock)) 0)
    by (destruct (readData sock); reflexivity).
  destruct (_ && _ && _); reflexivity.
Qed.

Lemma window_fed sock s :
  getBuffer (if bufferEmpty s then set_socketRecvBuffer (readData sock) s else s)
  = window sock s.
Proof. unfold window, getBuffer. destruct (bufferEmpty s); reflexivity. Qed.

Lemma receiveRequest_run sock s :
  receiveRequest parseRequest parseLLInt sock s =
  let s0 := if bufferEmpty s then set_socketRecvBuffer (readData sock) s else s in
  if peerClosed sock s then (Throw EX_EOF_FROM_PEER, s0) else
  let hp := update (headerProcessor_ s) (window sock s) in
  let s1 := set_headerProcessor hp s0 in
  if eoh hp then
    match getHttpRequestHeader parseRequest hp with
    | None => (Throw EX_MALFORMED_HEADER, s1)
    | Some header =>
        let offset :=
          to_size_t (Z.of_nat (length (window sock s)) - getPutBackDataLength hp) in
        if offset <=? Z.of_nat (length (window sock s)) then
          let s2 :=
            set_lastBody ss_reset
              (set_lastRequestHeader (Some header)
                 (set_socketRecvBuffer
                    (skipn (Z.to_nat offset) (window sock s)) s1)) in
          match findAsLLInt parseLLInt header CONTENT_LENGTH with
          | None => (Throw EX_MALFORMED_NUMBER, s2)
          | Some n =>
              if n <? 0 then (Throw EX_CONTENT_LENGTH, set_lastContentLength n s2)
              else
                (Return (Some header),
                 gzipLoop (tokens (find header ACCEPT_ENCODING))
                   (set_acceptsGZip false
                      (set_acceptsPersistentConnection
                         (strifind_is_end (find header CONNECTION) CLOSE &&
                          (String.eqb (getVersion header) HTTP_1_1 ||
                           negb (strifind_is_end (find header CONNECTION) KEEP_ALIVE)))
                         (set_headerProcessor clear (set_lastContentLength n s2)))))
          end
        else (Throw EX_ASSERT, s1)
    end
  else (Return None, set_socketRecvBuffer [] s1).
Proof.
  cbv zeta. unfold receiveRequest.
  unfold mbind at 1. unfold M_bind at 1. rewrite recvWhenEmpty_run.
  destruct (peerClosed sock s); [reflexivity |].
  unfold clearBuffer, shiftBuffer, orThrow, modify, get, throw, getBufferLength.
  unfold mbind, M_bind, mret, M_ret. cbn beta iota.
  pose proof (window_fed sock s) as Hw.
  set (s0 := if bufferEmpty s then _ else s) in *.
  assert (Hhp : headerProcessor_ s0 = headerProcessor_ s)
    by (subst s0; destruct (bufferEmpty s); reflexivity).
  assert (Hb : socketRecvBuffer_ s0 = window sock s) by exact Hw.
  cbn [headerProcessor_ set_headerProcessor socketRecvBuffer_].
  rewrite Hhp, Hw.
  destruct (eoh (update (headerProcessor_ s) (window sock s))); [| reflexivity].
  destruct (getHttpRequestHeader parseRequest _) as [header|]; [| reflexivity].
  cbn [headerProcessor_ set_headerProcessor socketRecvBuffer_]. rewrite Hb.
  destruct (_ <=? _); [| reflexivity].
  destruct (findAsLLInt parseLLInt header CONTENT_LENGTH) as [n|]; [| reflexivity].
  destruct (n <? 0); reflexivity.
Qed.

(** A returned header leaves the two flags computed from it. *)
Lemma receiveRequest_flags sock s h s' :
  receiveRequest parseRequest parseLLInt sock s = (Return (Some h), s') ->
  acceptsPersistentConnection_ s'
  = strifind_is_end (find h CONNECTION) CLOSE &&
    (String.eqb (getVersion h) HTTP_1_1 ||
     negb (strifind_is_end (find h CONNECTION) KEEP_ALIVE))
  /\ acceptsGZip_ s'
     = existsb (fun t => strieq t GZIP) (tokens (find h ACCEPT_ENCODING)).
Proof.
  rewrite receiveRequest_run. cbv zeta.
  repeat match goal with
         | |- context [if ?b then _ else _] => destruct b
         | |- context [match ?o with Some _ => _ | None => _ end] => destruct o
         end; try discriminate.
  all: intros [= -> <-].
  all: rewrite gzipLoop_acceptsPersistentConnection, gzipLoop_acceptsGZip.
  all: cbn [acceptsPersistentConnection_ acceptsGZip_ set_acceptsGZip
            set_acceptsPersistentConnection].
  all: now rewrite orb_false_r.
Qed.

(** C1 (as amended): for every received request, the stored keep-alive
    flag is true exactly when the Connection value does not contain
    [close] as a substring, ignoring case, and the version is HTTP/1.1 or
    the value contains [keep-alive] as a substring, ignoring case.  In
    particular: HTTP/1.0 without Connection gives false, HTTP/1.0 with
    [keep-alive] true, HTTP/1.1 without Connection true, HTTP/1.1 with
    [close] false. *)
Theorem receiveRequest_keepAlive sock s h s' :
  receiveRequest parseRequest parseLLInt sock s = (Return (Some h), s') ->
  (acceptsPersistentConnection_ s' = true <->
   ~ isubstring CLOSE (find h CONNECTION)
   /\ (getVersion h = HTTP_1_1 \/ isubstring KEEP_ALIVE (find h CONNECTION)))
  /\ (getVersion h = "HTTP/1.0" -> find h CONNECTION = "" ->
      acceptsPersistentConnection_ s' = false)
  /\ (getVersion h = "HTTP/1.0" -> find h CONNECTION = "keep-alive" ->
      acceptsPersistentConnection_ s' = true)
  /\ (getVersion h = "HTTP/1.1" -> find h CONNECTION = "" ->
      acceptsPersistentConnection_ s' = true)
  /\ (getVersion h = "HTTP/1.1" -> find h CONNECTION = "close" ->
      acceptsPersistentConnection_ s' = false).
Proof.
  intros H. apply receiveRequest_flags in H as [-> _].
  split; [| repeat split; intros -> ->; reflexivity].
  rewrite andb_true_iff, orb_true_iff, negb_true_iff, String.eqb_eq.
  rewrite (strifind_is_end_iff _ CLOSE) by discriminate.
  rewrite <- (not_true_iff_false (strifind_is_end _ KEEP_ALIVE)).
  rewrite (strifind_is_end_iff _ KEEP_ALIVE) by discriminate.
  split; intros [Hc Hk]; (split; [exact Hc |]); destruct Hk as [Hv | Hk]; auto.
  - right. destruct (strifind_is_end (find h CONNECTION) KEEP_ALIVE) eqn:E.
    + exfalso. apply Hk. now apply strifind_is_end_iff.
    + apply strifind_found. unfold strifind_is_end in E.
      apply Nat.eqb_neq in E. pose proof (strifind_le (find h CONNECTION) KEEP_ALIVE).
      lia.
Qed.

(** C3: for every received request, the stored [acceptsGZip_] flag is
    true exactly when one of the tokens of the Accept-Encoding value,
    split at commas and trimmed, equals [gzip] ignoring case.  In
    particular [x-gzip] alone gives false and [deflate, gzip] true. *)
Theorem receiveRequest_acceptsGZip sock s h s' :
  receiveRequest parseRequest parseLLInt sock s = (Return (Some h), s') ->
  (acceptsGZip_ s' = true <->
   exists tok, In tok (splitIter (find h ACCEPT_ENCODING) "," true)
               /\ lower tok = "gzip")
  /\ (find h ACCEPT_ENCODING = "x-gzip" -> acceptsGZip_ s' = false)
  /\ (find h ACCEPT_ENCODING = "deflate, gzip" -> acceptsGZip_ s' = true).
Proof.
  intros H. apply receiveRequest_flags in H as [_ ->].
  split; [| split; intros ->; reflexivity].
  rewrite existsb_exists. unfold tokens, strieq.
  split; intros (tok & Hin & Heq); exists tok; (split; [exact Hin |]).
  - now apply String.eqb_eq in Heq.
  - now apply String.eqb_eq.
Qed.


(** *** The shift after a complete header *)

Lemma to_size_t_small (z : Z) : 0 <= z < 2 ^ 64 -> to_size_t z = z.
Proof. intros H. unfold to_size_t. now apply Z.mod_small. Qed.

(** With no marker in the processor before the call, the marker found
    after the update ends inside the window, and the shift leaves the
    bytes past it. *)
Lemma shift_offset sock s h e :
  eoh (headerProcessor_ s) = false ->
  find_eoh (accumulated sock s) = Some (h, e) ->
  Z.of_nat (length (window sock s)) < 2 ^ 64 ->
  let hp := update (headerProcessor_ s) (window sock s) in
  let offset := to_size_t (Z.of_nat (length (window sock s)) - getPutBackDataLength hp) in
  0 <= getPutBackDataLength hp <= Z.of_nat (length (window sock s))
  /\ (offset <=? Z.of_nat (length (window sock s))) = true
  /\ offset = Z.of_nat (length (window sock s)) - getPutBackDataLength hp
  /\ skipn (Z.to_nat offset) (window sock s) = skipn e (accumulated sock s)
  /\ getPutBackDataLength hp = Z.of_nat (length (skipn e (accumulated sock s))).
Proof.
  intros Hold Hfind Hlt. cbv zeta.
  unfold getPutBackDataLength, update. cbn [buf_].
  change (buf_ (headerProcessor_ s) ++ window sock s) with (accumulated sock s).
  rewrite Hfind.
  assert (Hnone : find_eoh (buf_ (headerProcessor_ s)) = None).
  { unfold eoh in Hold. destruct (find_eoh _); [discriminate | reflexivity]. }
  pose proof (find_eoh_new _ _ _ _ Hnone Hfind) as Hnew.
  pose proof (find_eoh_bounds _ _ _ Hfind) as Hb.
  unfold accumulated in *. rewrite length_app in *.
  rewrite to_size_t_small by lia.
  repeat split; try lia.
  - apply Z.leb_le. lia.
  - rewrite skipn_app.
    rewrite (skipn_all2 (buf_ (headerProcessor_ s))) by lia.
    cbn [app]. f_equal. lia.
  - rewrite length_skipn, length_app. lia.
Qed.

(** C4: on a server whose header processor holds no complete header
    yet, and with the peer still there: when the update finds the marker
    (and the request is well formed, with a Content-Length that is not
    negative), [receiveRequest] shifts the buffer by the window length
    minus the put-back length and returns the header; what the processor
    was fed is then the header block, the marker, and the bytes left in the
    buffer.  When the marker is not found, it clears the buffer, the bytes
    stay in the header processor, and the result is null. *)
Theorem receiveRequest_shift sock s :
  eoh (headerProcessor_ s) = false ->
  peerClosed sock s = false ->
  Z.of_nat (length (window sock s)) < 2 ^ 64 ->
  let hp := update (headerProcessor_ s) (window sock s) in
  (forall header n,
     eoh hp = true ->
     getHttpRequestHeader parseRequest hp = Some header ->
     findAsLLInt parseLLInt header CONTENT_LENGTH = Some n -> 0 <= n ->
     exists s',
       receiveRequest parseRequest parseLLInt sock s = (Return (Some header), s')
       /\ 0 <= getPutBackDataLength hp <= Z.of_nat (length (window sock s))
       /\ socketRecvBuffer_ s'
          = skipn (Z.to_nat (Z.of_nat (length (window sock s))
                             - getPutBackDataLength hp))
                  (window sock s)
       /\ Z.of_nat (length (socketRecvBuffer_ s')) = getPutBackDataLength hp
       /\ exists marker,
            (marker = [CR; LF; CR; LF] \/ marker = [LF; LF])
            /\ buf_ hp = headerBlock hp ++ marker ++ socketRecvBuffer_ s')
  /\ (eoh hp = false ->
      exists s',
        receiveRequest parseRequest parseLLInt sock s = (Return None, s')
        /\ socketRecvBuffer_ s' = []
        /\ headerProcessor_ s' = hp).
Proof.
  intros Hold Hpeer Hlt hp. split.
  - intros header n Heoh Hparse Hcl Hn.
    rewrite receiveRequest_run. cbv zeta. fold hp.
    rewrite Hpeer, Heoh, Hparse, Hcl.
    unfold eoh in Heoh. subst hp.
    destruct (find_eoh (buf_ (update (headerProcessor_ s) (window sock s))))
      as [[h e]|] eqn:Hfind; [| discriminate].
    destruct (shift_offset sock s h e Hold Hfind Hlt) as (Hpb & Hle & Hoff & Hskip & Hlen).
    rewrite Hle. destruct (Z.ltb_spec n 0) as [Hneg | _]; [lia |].
    eexists. split; [reflexivity |].
    assert (Hbuf : forall l b x,
      socketRecvBuffer_ (gzipLoop l (set_acceptsGZip false
        (set_acceptsPersistentConnection b (set_headerProcessor clear
          (set_lastContentLength n x))))) = socketRecvBuffer_ x).
    { intros l b x. induction l as [|i l IH]; cbn [gzipLoop]; [reflexivity |].
      destruct (strieq i GZIP); [reflexivity | exact IH]. }
    rewrite Hbuf. cbn [socketRecvBuffer_ set_lastBody set_lastRequestHeader
                       set_socketRecvBuffer].
    rewrite Hoff in Hskip |- *. split; [exact Hpb |]. split; [reflexivity |]. split.
    + rewrite Hskip. symmetry. exact Hlen.
    + destruct (find_eoh_marker _ _ _ Hfind) as (marker & Hm & He & Hl).
      exists marker. split; [exact Hm |].
      unfold headerBlock. rewrite Hfind, Hskip. exact Hl.
  - intros Heoh. rewrite receiveRequest_run. cbv zeta. fold hp.
    rewrite Hpeer, Heoh. eexists. split; [reflexivity |].
    split; reflexivity.
Qed.

(** A call that returns leaves no complete header in the processor. *)
Lemma receiveRequest_keeps_processor_open sock s r s' :
  receiveRequest parseRequest parseLLInt sock s = (Return r, s') ->
  eoh (headerProcessor_ s') = false.
Proof.
  rewrite receiveRequest_run. cbv zeta.
  assert (Hhp : forall l x, headerProcessor_ (gzipLoop l x) = headerProcessor_ x).
  { intros l x. induction l as [|i l IH]; cbn [gzipLoop]; [reflexivity |].
    destruct (strieq i GZIP); [reflexivity | exact IH]. }
  destruct (peerClosed sock s); [discriminate |].
  destruct (eoh (update (headerProcessor_ s) (window sock s))) eqn:Heoh.
  - destruct (getHttpRequestHeader _ _); [| discriminate].
    destruct (_ <=? _); [| discriminate].
    destruct (findAsLLInt _ _ _); [| discriminate].
    destruct (_ <? _); [discriminate |].
    intros [= _ <-]. rewrite Hhp. reflexivity.
  - intros [= _ <-]. exact Heoh.
Qed.

(** *** The body *)

Lemma receiveBody_run sock s :
  receiveBody sock s =
  if lastContentLength_ s =? 0 then (Return true, s) else
  let s0 := if bufferEmpty s then set_socketRecvBuffer (readData sock) s else s in
  if peerClosed sock s then (Throw EX_EOF_FROM_PEER, s0) else
  let length :=
    Z.min (Z.of_nat (length (window sock s)))
          (to_size_t (lastContentLength_ s - tellg (lastBody_ s))) in
  let body := write (lastBody_ s) (window sock s) length in
  (Return (lastContentLength_ s =? tellp body),
   set_socketRecvBuffer (skipn (Z.to_nat length) (window sock s))
     (set_lastBody body s0)).
Proof.
  cbv zeta. unfold receiveBody, get.
  unfold mbind at 1. unfold M_bind at 1. cbn beta iota.
  destruct (lastContentLength_ s =? 0); [reflexivity |].
  unfold mbind at 1. unfold M_bind at 1. rewrite recvWhenEmpty_run.
  destruct (peerClosed sock s); [reflexivity |].
  unfold shiftBuffer, modify, getBufferLength.
  unfold mbind, M_bind, mret, M_ret. cbn beta iota.
  pose proof (window_fed sock s) as Hw. unfold getBuffer in *.
  set (s0 := if bufferEmpty s then _ else s) in *.
  assert (Hb : lastBody_ s0 = lastBody_ s)
    by (subst s0; destruct (bufferEmpty s); reflexivity).
  assert (Hc : lastContentLength_ s0 = lastContentLength_ s)
    by (subst s0; destruct (bufferEmpty s); reflexivity).
  cbn [socketRecvBuffer_ set_lastBody lastContentLength_ lastBody_].
  rewrite Hw, Hb, Hc.
  destruct (Z.leb_spec (Z.min (Z.of_nat (length (window sock s)))
              (to_size_t (lastContentLength_ s - tellg (lastBody_ s))))
              (Z.of_nat (length (window sock s)))) as [_ | H]; [| lia].
  cbn [lastContentLength_ lastBody_ set_socketRecvBuffer set_lastBody].
  now rewrite Hc.
Qed.

(** [lastBody_] is never read: a get position of 0 stays 0. *)
Lemma receiveRequest_tellg sock s :
  tellg (lastBody_ s) = 0 ->
  tellg (lastBody_ (snd (receiveRequest parseRequest parseLLInt sock s))) = 0.
Proof.
  intros Hg. rewrite receiveRequest_run. cbv zeta.
  assert (Hl : forall l x, lastBody_ (gzipLoop l x) = lastBody_ x).
  { intros l x. induction l as [|i l IH]; cbn [gzipLoop]; [reflexivity |].
    destruct (strieq i GZIP); [reflexivity | exact IH]. }
  repeat match goal with
         | |- context [if ?b then _ else _] => destruct b
         | |- context [match ?o with Some _ => _ | None => _ end] => destruct o
         end; cbn [snd]; rewrite ?Hl; try reflexivity; exact Hg.
Qed.

(** C6: on a server whose header processor holds no complete header yet,
    a complete request whose Content-Length parses to a negative number
    makes [receiveRequest] throw the Content-Length protocol error before
    any body byte is read: when the exception leaves the call the body
    accumulator is empty and the bytes past the header are still in the
    buffer.  The object keeps the negative number as its stored length.
    A request without the field gets the length 0, for which
    [receiveBody] returns true at once and touches nothing. *)
Theorem receiveRequest_content_length sock s header :
  eoh (headerProcessor_ s) = false ->
  peerClosed sock s = false ->
  Z.of_nat (length (window sock s)) < 2 ^ 64 ->
  let hp := update (headerProcessor_ s) (window sock s) in
  eoh hp = true ->
  getHttpRequestHeader parseRequest hp = Some header ->
  (forall n,
     findAsLLInt parseLLInt header CONTENT_LENGTH = Some n -> n < 0 ->
     exists s',
       receiveRequest parseRequest parseLLInt sock s = (Throw EX_CONTENT_LENGTH, s')
       /\ isProtocolError EX_CONTENT_LENGTH = true
       /\ str (lastBody_ s') = []
       /\ (exists marker,
             (marker = [CR; LF; CR; LF] \/ marker = [LF; LF])
             /\ buf_ hp = headerBlock hp ++ marker ++ socketRecvBuffer_ s')
       /\ lastContentLength_ s' = n)
  /\ (find header CONTENT_LENGTH = "" ->
      exists s',
        receiveRequest parseRequest parseLLInt sock s = (Return (Some header), s')
        /\ lastContentLength_ s' = 0
        /\ forall sock', receiveBody sock' s' = (Return true, s')).
Proof.
  intros Hold Hpeer Hlt hp Heoh Hparse.
  assert (Hrun := receiveRequest_run sock s). cbv zeta in Hrun. fold hp in Hrun.
  rewrite Hpeer, Heoh, Hparse in Hrun.
  unfold eoh in Heoh.
  destruct (find_eoh (buf_ hp)) as [[h e]|] eqn:Hfind; [| discriminate].
  destruct (shift_offset sock s h e Hold Hfind Hlt) as (Hpb & Hle & Hoff & Hskip & Hlen).
  fold hp in Hle, Hskip. rewrite Hle in Hrun.
  split.
  - intros n Hcl Hn. rewrite Hcl in Hrun.
    destruct (Z.ltb_spec n 0) as [_ | Hge]; [| lia].
    eexists. split; [exact Hrun |]. split; [reflexivity |].
    split; [reflexivity |]. split.
    + destruct (find_eoh_marker _ _ _ Hfind) as (marker & Hm & He & Hl).
      exists marker. split; [exact Hm |].
      cbn [socketRecvBuffer_ set_lastContentLength set_lastBody
           set_lastRequestHeader set_socketRecvBuffer].
      unfold headerBlock. rewrite Hfind, Hskip. exact Hl.
    + reflexivity.
  - intros Hempty.
    assert (Hcl : findAsLLInt parseLLInt header CONTENT_LENGTH = Some 0)
      by (unfold findAsLLInt; now rewrite Hempty).
    rewrite Hcl in Hrun. cbn [Z.ltb Z.compare] in Hrun.
    eexists. split; [exact Hrun |].
    assert (Hlen0 : forall l x, lastContentLength_ (gzipLoop l x) = lastContentLength_ x).
    { intros l x. induction l as [|i l IH]; cbn [gzipLoop]; [reflexivity |].
      destruct (strieq i GZIP); [reflexivity | exact IH]. }
    split.
    + now rewrite Hlen0.
    + intros sock'. rewrite receiveBody_run, Hlen0. reflexivity.
Qed.

(** *** Delivery in chunks *)

Lemma peerClosed_data sock s : readData sock <> [] -> peerClosed sock s = false.
Proof.
  intros H. unfold peerClosed. destruct (readData sock); [congruence |].
  cbn [length Nat.eqb]. now rewrite andb_false_r.
Qed.

Lemma eoh_false_find hp : eoh hp = false <-> find_eoh (buf_ hp) = None.
Proof. unfold eoh. destruct (find_eoh (buf_ hp)); split; congruence. Qed.

(** One call on an empty buffer: its result is the outcome of all the
    bytes accumulated so far; a null result leaves the buffer empty and
    the bytes in the processor. *)
Lemma receiveRequest_outcome sock s :
  bufferEmpty s = true ->
  eoh (headerProcessor_ s) = false ->
  readData sock <> [] ->
  Z.of_nat (length (readData sock)) < 2 ^ 64 ->
  let r := receiveRequest parseRequest parseLLInt sock s in
  fst r = requestOutcome parseRequest parseLLInt
            (buf_ (headerProcessor_ s) ++ readData sock)
  /\ (fst r = Return None ->
      bufferEmpty (snd r) = true
      /\ buf_ (headerProcessor_ (snd r)) = buf_ (headerProcessor_ s) ++ readData sock
      /\ eoh (headerProcessor_ (snd r)) = false).
Proof.
  intros Hempty Hold Hdata Hlt. cbv zeta.
  assert (Hw : window sock s = readData sock) by (unfold window; now rewrite Hempty).
  pose proof (receiveRequest_run sock s) as Hrun. cbv zeta in Hrun.
  rewrite (peerClosed_data sock s Hdata), Hw in Hrun.
  unfold eoh, getHttpRequestHeader, headerBlock, update in Hrun. cbn [buf_] in Hrun.
  unfold requestOutcome.
  destruct (find_eoh (buf_ (headerProcessor_ s) ++ readData sock))
    as [[h e]|] eqn:Hfind.
  - destruct (parseRequest _) as [header|];
      [| rewrite Hrun; split; [reflexivity | discriminate]].
    assert (Hfind' : find_eoh (accumulated sock s) = Some (h, e))
      by (unfold accumulated; now rewrite Hw).
    assert (Hlt' : Z.of_nat (length (window sock s)) < 2 ^ 64) by now rewrite Hw.
    destruct (shift_offset sock s h e Hold Hfind' Hlt') as (_ & Hle & _).
    unfold update in Hle. rewrite Hw in Hle. rewrite Hle in Hrun.
    destruct (findAsLLInt parseLLInt header CONTENT_LENGTH) as [n|];
      [| rewrite Hrun; split; [reflexivity | discriminate]].
    destruct (n <? 0); rewrite Hrun; split; try reflexivity; discriminate.
  - rewrite Hrun. split; [reflexivity |]. intros _. cbn [snd].
    split; [reflexivity |]. split; [reflexivity |].
    apply eoh_false_find. exact Hfind.
Qed.

(** Bytes that follow a complete header do not change the outcome. *)
Lemma requestOutcome_app acc rest :
  requestOutcome parseRequest parseLLInt acc <> Return None ->
  requestOutcome parseRequest parseLLInt (acc ++ rest)
  = requestOutcome parseRequest parseLLInt acc.
Proof.
  unfold requestOutcome. intros H.
  destruct (find_eoh acc) as [[h e]|] eqn:Hfind; [| congruence].
  rewrite (find_eoh_app _ rest _ _ Hfind).
  apply find_eoh_bounds in Hfind.
  rewrite firstn_app. replace (h - length acc)%nat with 0%nat by lia.
  cbn [firstn]. now rewrite app_nil_r.
Qed.

Lemma retryReceiveRequest_outcome socks : forall s,
  bufferEmpty s = true ->
  eoh (headerProcessor_ s) = false ->
  Forall (fun sock => readData sock <> []) socks ->
  Z.of_nat (length (concat (map readData socks))) < 2 ^ 64 ->
  fst (retryReceiveRequest parseRequest parseLLInt socks s)
  = requestOutcome parseRequest parseLLInt
      (buf_ (headerProcessor_ s) ++ concat (map readData socks)).
Proof.
  induction socks as [|sock socks IH]; intros s Hempty Hold Hdata Hlt.
  - cbn [retryReceiveRequest map concat]. rewrite app_nil_r.
    unfold requestOutcome. apply eoh_false_find in Hold. now rewrite Hold.
  - cbn [map concat] in Hlt |- *. rewrite length_app in Hlt.
    apply Forall_cons_iff in Hdata as [Hsock Hrest].
    destruct (receiveRequest_outcome sock s Hempty Hold Hsock ltac:(lia))
      as [Hfst Hnone].
    cbn [retryReceiveRequest]. unfold mbind, M_bind.
    destruct (receiveRequest parseRequest parseLLInt sock s) as [[[header|]|e] s1]
      eqn:Hrun; cbn [fst snd] in *.
    + rewrite app_assoc, requestOutcome_app; rewrite <- Hfst; [reflexivity | discriminate].
    + destruct (Hnone eq_refl) as (He1 & Hb1 & Ho1).
      rewrite (IH s1 He1 Ho1 Hrest ltac:(lia)), Hb1. now rewrite <- app_assoc.
    + rewrite app_assoc, requestOutcome_app; rewrite <- Hfst; [reflexivity | discriminate].
Qed.

(** C5: on a server with an empty buffer and no complete header in the
    processor, the same bytes delivered by any number of non-empty
    reads, one per [receiveRequest] cycle, or by a single read, produce
    the same result: the same request header (method, path, version,
    field table), or the same protocol error, or no header yet. *)
Theorem receiveRequest_chunk_independence socks sock s :
  bufferEmpty s = true ->
  eoh (headerProcessor_ s) = false ->
  socks <> [] ->
  Forall (fun sock' => readData sock' <> []) socks ->
  readData sock = concat (map readData socks) ->
  Z.of_nat (length (readData sock)) < 2 ^ 64 ->
  fst (retryReceiveRequest parseRequest parseLLInt socks s)
  = fst (receiveRequest parseRequest parseLLInt sock s).
Proof.
  intros Hempty Hold Hne Hdata Hcat Hlt.
  assert (Hsock : readData sock <> []).
  { rewrite Hcat. destruct socks as [|sock' socks]; [congruence |].
    apply Forall_cons_iff in Hdata as [H _]. cbn [map concat].
    destruct (readData sock'); [congruence | discriminate]. }
  destruct (receiveRequest_outcome sock s Hempty Hold Hsock Hlt) as [-> _].
  rewrite Hcat in Hlt |- *.
  now apply retryReceiveRequest_outcome.
Qed.

End Receive.

(** ** The engine on concrete requests *)

(** One read delivers a header and the first three bytes of the body: the
    header is returned and [abc] stays in the buffer. *)
Lemma receiveRequest_shift_witness :
  exists s',
    after_request request_post5 = (Return (Some header_post5), s')
    /\ socketRecvBuffer_ s' = list_byte_of_string "abc".
Proof.
  pose proof (receiveRequest_shift Impl.parseRequest Impl.parseLLInt
                (arrives request_post5) new_HttpServer) as H.
  cbv zeta in H.
  destruct H as [H _]; [reflexivity | reflexivity | reflexivity |].
  destruct (H header_post5 5) as (s' & Hrun & _ & Hbuf & _);
    [vm_compute; reflexivity | vm_compute; reflexivity | vm_compute; reflexivity
    | lia |].
  exists s'. split; [exact Hrun |]. rewrite Hbuf. vm_compute. reflexivity.
Defined.

(** [Content-Length: -1]: the call throws, nothing is written to the
    body, [abc] is still buffered, and the stored length is -1. *)
Lemma receiveRequest_content_length_witness :
  exists s',
    after_request request_negative = (Throw EX_CONTENT_LENGTH, s')
    /\ str (lastBody_ s') = []
    /\ string_of_list_byte (socketRecvBuffer_ s') = "abc"
    /\ lastContentLength_ s' = -1.
Proof.
  pose proof (receiveRequest_content_length Impl.parseRequest Impl.parseLLInt
                (arrives request_negative) new_HttpServer header_negative) as H.
  cbv zeta in H.
  destruct H as [H _];
    [reflexivity | reflexivity | reflexivity | vm_compute; reflexivity
    | vm_compute; reflexivity |].
  destruct (H (-1)) as (s' & Hrun & _ & Hbody & _ & Hlen);
    [vm_compute; reflexivity | lia |].
  exists s'. split; [exact Hrun |]. split; [exact Hbody |].
  split; [| exact Hlen].
  unfold after_request in Hrun.
  change (socketRecvBuffer_ s')
    with (socketRecvBuffer_
            (snd (@pair (result (option HttpHeader)) _ (Throw EX_CONTENT_LENGTH) s'))).
  rewrite <- Hrun. vm_compute. reflexivity.
Defined.

(** C6 as worded fails on the object: after [Content-Length: -1] with
    [abc] behind the header, the call has thrown and [abc] is buffered; a
    [receiveBody] on that object finds the length -1, moves [abc] into the
    body and empties the buffer. *)
Lemma receiveBody_after_negative_length :
  fst (after_request request_negative) = Throw EX_CONTENT_LENGTH
  /\ string_of_list_byte (socketRecvBuffer_ (snd (after_request request_negative)))
     = "abc"
  /\ getBody (snd (after_request request_negative)) = ""
  /\ fst body_after_negative = Return false
  /\ getBody (snd body_after_negative) = "abc"
  /\ socketRecvBuffer_ (snd body_after_negative) = [].
Proof. repeat split; vm_compute; reflexivity. Qed.

(** A request cut into three reads, the last cut inside the marker. *)
Lemma receiveRequest_chunk_independence_witness :
  fst (retryReceiveRequest Impl.parseRequest Impl.parseLLInt keepalive_10_chunks
         new_HttpServer)
  = fst (after_request request_keepalive_10)
  /\ fst (after_request request_keepalive_10) = Return (Some header_keepalive_10).
Proof.
  split.
  - apply receiveRequest_chunk_independence.
    + reflexivity.
    + reflexivity.
    + discriminate.
    + repeat constructor; discriminate.
    + vm_compute. reflexivity.
    + vm_compute. reflexivity.
  - vm_compute. reflexivity.
Defined.

Example retryReceiveRequest_chunks :
  fst (retryReceiveRequest Impl.parseRequest Impl.parseLLInt keepalive_10_chunks
         new_HttpServer)
  = Return (Some header_keepalive_10).
Proof. vm_compute. reflexivity. Qed.

(** ** The body beyond Content-Length *)

Lemma tellg_write ss data n : tellg (write ss data n) = tellg ss.
Proof. reflexivity. Qed.

(** No member function reads [lastBody_]: [receiveBody] leaves its get
    position where it was, and [receiveRequest] resets it. *)
Lemma receiveBody_tellg sock s :
  tellg (lastBody_ (snd (receiveBody sock s))) = tellg (lastBody_ s).
Proof.
  rewrite receiveBody_run. cbv zeta.
  destruct (lastContentLength_ s =? 0); [reflexivity |].
  destruct (peerClosed sock s); cbn [snd]; destruct (bufferEmpty s); reflexivity.
Qed.

(** What one call of [receiveBody] moves when the get position is 0, as
    it is in every state the member functions produce: the smaller of the
    window length and the whole Content-Length, whatever has been written
    before. *)
Lemma receiveBody_moves sock s :
  0 < lastContentLength_ s < 2 ^ 64 ->
  tellg (lastBody_ s) = 0 ->
  peerClosed sock s = false ->
  let moved := Z.to_nat (Z.min (Z.of_nat (length (window sock s)))
                               (lastContentLength_ s)) in
  let s' := snd (receiveBody sock s) in
  str (lastBody_ s') = str (lastBody_ s) ++ firstn moved (window sock s)
  /\ socketRecvBuffer_ s' = skipn moved (window sock s).
Proof.
  intros Hcl Hg Hpeer. cbv zeta. rewrite receiveBody_run. cbv zeta.
  destruct (Z.eqb_spec (lastContentLength_ s) 0) as [E | _]; [lia |].
  rewrite Hpeer, Hg, Z.sub_0_r, to_size_t_small by lia.
  cbn [snd]. split; reflexivity.
Qed.

(** C2, the code at the failing input: Content-Length is 5 and [abc] has
    been written by a first call.  The second call finds 20 bytes in the
    window; the claim has it move min(20, 5 - 3) = 2 of them.  It moves 5:
    the body holds 8 bytes, more than Content-Length, the first three
    bytes of the next request are gone from the buffer, and the body is
    not reported complete. *)
Theorem receiveBody_overrun :
  fst (post5_first_body new_HttpServer) = Return false
  /\ getBody (snd (post5_first_body new_HttpServer)) = "abc"
  /\ socketRecvBuffer_ (snd (post5_first_body new_HttpServer)) = []
  /\ tellg (lastBody_ (snd (post5_first_body new_HttpServer))) = 0
  /\ fst (post5_session new_HttpServer) = Return (false, false)
  /\ lastContentLength_ (snd (post5_session new_HttpServer)) = 5
  /\ getBody (snd (post5_session new_HttpServer)) = "abcdeGET"
  /\ tellp (lastBody_ (snd (post5_session new_HttpServer))) = 8
  /\ string_of_list_byte (socketRecvBuffer_ (snd (post5_session new_HttpServer)))
     = " / HTTP/1.1" +:+ CRLF +:+ CRLF.
Proof. repeat split; vm_compute; reflexivity. Qed.

(** HTTP/1.0 with [Connection: keep-alive]. *)
Lemma receiveRequest_keepAlive_witness :
  after_request request_keepalive_10
  = (Return (Some header_keepalive_10), snd (after_request request_keepalive_10))
  /\ acceptsPersistentConnection_ (snd (after_request request_keepalive_10)) = true.
Proof.
  assert (H : after_request request_keepalive_10
              = (Return (Some header_keepalive_10),
                 snd (after_request request_keepalive_10)))
    by (vm_compute; reflexivity).
  split; [exact H |].
  destruct (receiveRequest_keepAlive _ _ _ _ _ _ H) as (_ & _ & H3 & _).
  apply H3; reflexivity.
Defined.

(** C1, the claim as worded fails: in [Connection: keep-alive,
    x-close-hint] no token is [close] and one is [keep-alive], so the
    token reading gives true; the code finds [close] inside the value and
    stores false. *)
Lemma keepAlive_by_tokens_counterexample :
  after_request request_close_hint
  = (Return (Some header_close_hint), snd (after_request request_close_hint))
  /\ tokens (find header_close_hint CONNECTION) = ["keep-alive"; "x-close-hint"]
  /\ keepAlive_by_tokens header_close_hint = true
  /\ acceptsPersistentConnection_ (snd (after_request request_close_hint)) = false.
Proof. repeat split; vm_compute; reflexivity. Qed.

(** [Accept-Encoding: deflate, gzip]. *)
Lemma receiveRequest_acceptsGZip_witness :
  after_request request_gzip
  = (Return (Some header_gzip), snd (after_request request_gzip))
  /\ acceptsGZip_ (snd (after_request request_gzip)) = true.
Proof.
  assert (H : after_request request_gzip
              = (Return (Some header_gzip), snd (after_request request_gzip)))
    by (vm_compute; reflexivity).
  split; [exact H |].
  destruct (receiveRequest_acceptsGZip _ _ _ _ _ _ H) as (_ & _ & H3).
  apply H3; reflexivity.
Defined.

(** * More of the engine *)

(** ** Records and the loop *)

Lemma set_socketRecvBuffer_same (s : HttpServer) (b : bytes) :
  socketRecvBuffer_ s = b -> set_socketRecvBuffer b s = s.
Proof. intros <-. now destruct s. Qed.

Lemma set_headerProcessor_same (s : HttpServer) (hp : HttpHeaderProcessor) :
  headerProcessor_ s = hp -> set_headerProcessor hp s = s.
Proof. intros <-. now destruct s. Qed.

Lemma set_lastBody_same (s : HttpServer) (ss : stringstream) :
  lastBody_ s = ss -> set_lastBody ss s = s.
Proof. intros <-. now destruct s. Qed.

Lemma update_nil (hp : HttpHeaderProcessor) : update hp [] = hp.
Proof. destruct hp as [b]. unfold update. cbn [buf_]. now rewrite app_nil_r. Qed.

Lemma write_nothing (ss : stringstream) (data : bytes) : write ss data 0 = ss.
Proof. destruct ss as [b g]. unfold write. cbn. now rewrite app_nil_r. Qed.

(** The loop changes [acceptsGZip_] or nothing. *)
Lemma gzipLoop_cases (l : list string) (s : HttpServer) :
  gzipLoop l s = s \/ gzipLoop l s = set_acceptsGZip true s.
Proof.
  induction l as [|i l IH]; cbn [gzipLoop]; [now left |].
  destruct (strieq i GZIP); [now right | exact IH].
Qed.

Lemma window_empty sock s :
  bufferEmpty s = true -> window sock s = readData sock.
Proof. unfold window. now intros ->. Qed.

Lemma window_buffered sock s :
  bufferEmpty s = false -> window sock s = socketRecvBuffer_ s.
Proof. unfold window. now intros ->. Qed.

Lemma peerClosed_true sock s :
  peerClosed sock s = true <->
  bufferEmpty s = true /\ readData sock = [] /\ wantRead sock = false
  /\ wantWrite sock = false.
Proof.
  unfold peerClosed. rewrite !andb_true_iff, !negb_true_iff, Nat.eqb_eq.
  rewrite length_zero_iff_nil. tauto.
Qed.

Section Lifecycle.

Variable parseRequest : bytes -> option HttpHeader.
Variable parseLLInt : string -> option Z.

Ltac run_cases :=
  repeat match goal with
         | |- context [if ?b then _ else _] => destruct b eqn:?
         | |- context [match ?o with Some _ => _ | None => _ end] => destruct o eqn:?
         end.

(** ** End of file and idle reads *)

(** X1: [receiveRequest] throws the end-of-file exception exactly when
    the buffer is empty, the read delivers nothing, and the socket expects
    neither a read nor a write; the object is then left as it was. *)
Theorem receiveRequest_eof sock s :
  (fst (receiveRequest parseRequest parseLLInt sock s) = Throw EX_EOF_FROM_PEER
   <-> bufferEmpty s = true /\ readData sock = [] /\ wantRead sock = false
       /\ wantWrite sock = false)
  /\ (fst (receiveRequest parseRequest parseLLInt sock s) = Throw EX_EOF_FROM_PEER ->
      snd (receiveRequest parseRequest parseLLInt sock s) = s).
Proof.
  rewrite <- peerClosed_true, receiveRequest_run. cbv zeta.
  destruct (peerClosed sock s) eqn:Hp.
  - cbn [fst snd]. split; [tauto |]. intros _.
    apply peerClosed_true in Hp as (He & Hd & _). rewrite He, Hd.
    apply set_socketRecvBuffer_same. now apply bufferEmpty_true.
  - run_cases; cbn [fst]; split; try (split; discriminate); discriminate.
Qed.


(** X3: a read that delivers nothing while the socket still expects a
    read or a write is not an error and changes nothing:
    [receiveRequest] returns null, [receiveBody] returns whether the body
    is already complete. *)
Theorem idle_read sock s :
  bufferEmpty s = true ->
  readData sock = [] ->
  wantRead sock = true \/ wantWrite sock = true ->
  (eoh (headerProcessor_ s) = false ->
   receiveRequest parseRequest parseLLInt sock s = (Return None, s))
  /\ (lastContentLength_ s <> 0 ->
      receiveBody sock s
      = (Return (lastContentLength_ s =? tellp (lastBody_ s)), s)).
Proof.
  intros He Hd Hw.
  assert (Hp : peerClosed sock s = false).
  { destruct (peerClosed sock s) eqn:Hp; [| reflexivity].
    apply peerClosed_true in Hp as (_ & _ & Hr & Hw'). destruct Hw; congruence. }
  assert (Hwin : window sock s = []) by (rewrite window_empty; assumption).
  assert (Hb : socketRecvBuffer_ s = []) by now apply bufferEmpty_true.
  split.
  - intros Hold. rewrite receiveRequest_run. cbv zeta.
    rewrite Hp, Hwin, update_nil, Hold, He, Hd.
    f_equal. rewrite (set_socketRecvBuffer_same s []) by exact Hb.
    rewrite (set_headerProcessor_same s) by reflexivity.
    now apply set_socketRecvBuffer_same.
  - intros Hcl. rewrite receiveBody_run. cbv zeta.
    apply Z.eqb_neq in Hcl. rewrite Hcl, Hp, Hwin, He, Hd.
    change (Z.of_nat (length (@nil byte))) with 0.
    assert (Hmin : Z.min 0 (to_size_t (lastContentLength_ s - tellg (lastBody_ s))) = 0).
    { apply Z.min_l. unfold to_size_t. apply Z.mod_pos_bound. lia. }
    rewrite Hmin, write_nothing. cbn [Z.to_nat skipn].
    f_equal. rewrite (set_socketRecvBuffer_same s []) by exact Hb.
    rewrite (set_lastBody_same s) by reflexivity.
    now apply set_socketRecvBuffer_same.
Qed.

(** X4: while bytes are buffered the socket is not read: the calls do
    the same whatever the socket would answer. *)
Theorem buffered_bytes_first sock sock' s :
  bufferEmpty s = false ->
  receiveRequest parseRequest parseLLInt sock s
  = receiveRequest parseRequest parseLLInt sock' s
  /\ receiveBody sock s = receiveBody sock' s.
Proof.
  intros Hb.
  assert (Hp : forall k, peerClosed k s = false)
    by (intros k; unfold peerClosed; now rewrite Hb).
  rewrite !receiveRequest_run, !receiveBody_run. cbv zeta.
  rewrite !Hp, !(window_buffered _ s Hb), Hb. split; reflexivity.
Qed.

(** ** What the receiving calls leave alone *)

Ltac loop_cases :=
  try match goal with
      | |- context [gzipLoop ?l ?x] => destruct (gzipLoop_cases l x) as [-> | ->]
      end.

(** X5: whatever its outcome, [receiveRequest] leaves the send queue,
    the credentials, the allowed origin and the two server-side switches
    as they were. *)
Theorem receiveRequest_frame sock s :
  let s' := snd (receiveRequest parseRequest parseLLInt sock s) in
  socketBuffer_ s' = socketBuffer_ s
  /\ username_ s' = username_ s
  /\ password_ s' = password_ s
  /\ allowOrigin_ s' = allowOrigin_ s
  /\ keepAlive_ s' = keepAlive_ s
  /\ gzip_ s' = gzip_ s.
Proof.
  cbv zeta. rewrite receiveRequest_run. cbv zeta.
  run_cases; cbn [snd]; loop_cases; repeat split; reflexivity.
Qed.

(** X6: whatever its outcome, [receiveBody] changes nothing but the
    receive buffer and the body: the last header, the stored
    Content-Length, the negotiated flags, the header processor, the send
    queue and the credentials stay. *)
Theorem receiveBody_frame sock s :
  let s' := snd (receiveBody sock s) in
  lastRequestHeader_ s' = lastRequestHeader_ s
  /\ lastContentLength_ s' = lastContentLength_ s
  /\ acceptsPersistentConnection_ s' = acceptsPersistentConnection_ s
  /\ acceptsGZip_ s' = acceptsGZip_ s
  /\ headerProcessor_ s' = headerProcessor_ s
  /\ socketBuffer_ s' = socketBuffer_ s
  /\ username_ s' = username_ s
  /\ password_ s' = password_ s
  /\ allowOrigin_ s' = allowOrigin_ s
  /\ keepAlive_ s' = keepAlive_ s
  /\ gzip_ s' = gzip_ s.
Proof.
  cbv zeta. rewrite receiveBody_run. cbv zeta.
  run_cases; cbn [snd]; repeat split; reflexivity.
Qed.

(** X7: a call of [receiveRequest] that returns null (header not yet
    complete) keeps the last request as it was: header, body,
    Content-Length and negotiated flags; the window has gone from the
    buffer into the header processor. *)
Theorem receiveRequest_incomplete sock s s' :
  receiveRequest parseRequest parseLLInt sock s = (Return None, s') ->
  lastRequestHeader_ s' = lastRequestHeader_ s
  /\ lastBody_ s' = lastBody_ s
  /\ lastContentLength_ s' = lastContentLength_ s
  /\ acceptsPersistentConnection_ s' = acceptsPersistentConnection_ s
  /\ acceptsGZip_ s' = acceptsGZip_ s
  /\ socketRecvBuffer_ s' = []
  /\ buf_ (headerProcessor_ s') = buf_ (headerProcessor_ s) ++ window sock s.
Proof.
  rewrite receiveRequest_run. cbv zeta.
  run_cases; try discriminate; intros [= <-]; repeat split; reflexivity.
Qed.

(** X8: a call of [receiveRequest] that returns a header makes it the
    last request: [getMethod] and [getRequestPath] answer from it, the
    body is empty, the stored Content-Length is the one of the header and
    is not negative, and the header processor is empty again. *)
Theorem receiveRequest_header sock s h s' :
  receiveRequest parseRequest parseLLInt sock s = (Return (Some h), s') ->
  lastRequestHeader_ s' = Some h
  /\ getMethod s' = Some (getMethod_ h)
  /\ getRequestPath s' = Some (getRequestPath_ h)
  /\ getBody s' = ""
  /\ findAsLLInt parseLLInt h CONTENT_LENGTH = Some (lastContentLength_ s')
  /\ 0 <= lastContentLength_ s'
  /\ headerProcessor_ s' = clear.
Proof.
  rewrite receiveRequest_run. cbv zeta. unfold getMethod, getRequestPath, getBody.
  run_cases; try discriminate; intros [= <- <-]; loop_cases;
    cbn [lastRequestHeader_ lastBody_ lastContentLength_ headerProcessor_
         set_acceptsGZip set_acceptsPersistentConnection set_headerProcessor
         set_lastContentLength set_lastBody set_lastRequestHeader option_map];
    repeat split; try reflexivity; try assumption; now apply Z.ltb_ge.
Qed.

(** ** After a protocol error *)



(** ** The body, byte by byte *)

(** X10: [receiveBody] neither drops nor repeats a byte: the body
    followed by the buffer after the call is the body before the call
    followed by the window. *)
Theorem receiveBody_conserves sock s b s' :
  lastContentLength_ s <> 0 ->
  receiveBody sock s = (Return b, s') ->
  str (lastBody_ s') ++ socketRecvBuffer_ s' = str (lastBody_ s) ++ window sock s.
Proof.
  intros Hcl. rewrite receiveBody_run. cbv zeta.
  apply Z.eqb_neq in Hcl. rewrite Hcl.
  destruct (peerClosed sock s); [discriminate |].
  intros [= _ <-].
  cbn [str lastBody_ socketRecvBuffer_ set_socketRecvBuffer set_lastBody write].
  now rewrite <- app_assoc, firstn_skipn.
Qed.

(** X11: the first [receiveBody] of a request (nothing written yet)
    keeps to Content-Length: it moves the smaller of the window length and
    Content-Length, leaves the rest of the window in the buffer, and
    returns true exactly when the window holds at least Content-Length
    bytes. *)
Theorem receiveBody_first_call sock s :
  str (lastBody_ s) = [] ->
  tellg (lastBody_ s) = 0 ->
  0 < lastContentLength_ s < 2 ^ 64 ->
  peerClosed sock s = false ->
  let moved := Z.to_nat (Z.min (Z.of_nat (length (window sock s)))
                               (lastContentLength_ s)) in
  exists s',
    receiveBody sock s
    = (Return (lastContentLength_ s <=? Z.of_nat (length (window sock s))), s')
    /\ str (lastBody_ s') = firstn moved (window sock s)
    /\ socketRecvBuffer_ s' = skipn moved (window sock s)
    /\ tellp (lastBody_ s') <= lastContentLength_ s.
Proof.
  intros Hstr Hg Hcl Hpeer. cbv zeta. rewrite receiveBody_run. cbv zeta.
  destruct (Z.eqb_spec (lastContentLength_ s) 0) as [E | _]; [lia |].
  rewrite Hpeer, Hg, Z.sub_0_r, to_size_t_small by lia.
  eexists. split; [| split; [| split]].
  - f_equal. f_equal. unfold tellp, write. cbn [str]. rewrite Hstr. cbn [app].
    rewrite length_firstn.
    destruct (Z.eqb_spec (lastContentLength_ s)
                (Z.of_nat (Init.Nat.min
                   (Z.to_nat (Z.min (Z.of_nat (length (window sock s)))
                                    (lastContentLength_ s)))
                   (length (window sock s)))));
      destruct (Z.leb_spec (lastContentLength_ s)
                  (Z.of_nat (length (window sock s)))); lia.
  - cbn [str lastBody_ set_socketRecvBuffer set_lastBody write].
    now rewrite Hstr.
  - reflexivity.
  - unfold tellp. cbn [str lastBody_ set_socketRecvBuffer set_lastBody write].
    rewrite Hstr. cbn [app]. rewrite length_firstn. lia.
Qed.

(** ** A request and what follows it in the buffer *)

(** The state after a complete, well-formed header. *)
Lemma receiveRequest_complete sock s header n h e :
  eoh (headerProcessor_ s) = false ->
  peerClosed sock s = false ->
  Z.of_nat (length (window sock s)) < 2 ^ 64 ->
  find_eoh (accumulated sock s) = Some (h, e) ->
  parseRequest (firstn h (accumulated sock s)) = Some header ->
  findAsLLInt parseLLInt header CONTENT_LENGTH = Some n ->
  0 <= n ->
  exists s',
    receiveRequest parseRequest parseLLInt sock s = (Return (Some header), s')
    /\ socketRecvBuffer_ s' = skipn e (accumulated sock s)
    /\ lastBody_ s' = ss_reset
    /\ lastContentLength_ s' = n
    /\ lastRequestHeader_ s' = Some header.
Proof.
  intros Hold Hpeer Hlt Hfind Hparse Hcl Hn.
  destruct (shift_offset sock s h e Hold Hfind Hlt) as (_ & Hle & _ & Hskip & _).
  rewrite receiveRequest_run. cbv zeta.
  unfold eoh, getHttpRequestHeader, headerBlock.
  change (buf_ (update (headerProcessor_ s) (window sock s)))
    with (accumulated sock s).
  rewrite Hpeer, Hfind, Hparse, Hle, Hcl, Hskip.
  destruct (Z.ltb_spec n 0) as [Hneg | _]; [lia |].
  eexists. split; [reflexivity |]. loop_cases; repeat split; reflexivity.
Qed.

(** X12: a request that arrives whole.  When one window holds the header
    and at least Content-Length bytes after it, [receiveRequest] followed
    by [receiveBody] returns true without another read, and what the
    header processor was fed is the header block, the marker, the body of
    exactly Content-Length bytes, and the bytes left in the buffer. *)
Theorem request_in_one_read sock sock' s header n :
  eoh (headerProcessor_ s) = false ->
  peerClosed sock s = false ->
  Z.of_nat (length (window sock s)) < 2 ^ 64 ->
  let hp := update (headerProcessor_ s) (window sock s) in
  eoh hp = true ->
  getHttpRequestHeader parseRequest hp = Some header ->
  findAsLLInt parseLLInt header CONTENT_LENGTH = Some n ->
  0 < n <= getPutBackDataLength hp ->
  exists s' marker,
    (receiveRequest parseRequest parseLLInt sock;; receiveBody sock') s
    = (Return true, s')
    /\ (marker = [CR; LF; CR; LF] \/ marker = [LF; LF])
    /\ buf_ hp = headerBlock hp ++ marker ++ str (lastBody_ s') ++ socketRecvBuffer_ s'
    /\ Z.of_nat (length (str (lastBody_ s'))) = n
    /\ lastRequestHeader_ s' = Some header.
Proof.
  intros Hold Hpeer Hlt hp Heoh Hparse Hcl Hn.
  unfold eoh in Heoh. unfold getHttpRequestHeader, headerBlock in Hparse.
  destruct (find_eoh (buf_ hp)) as [[h e]|] eqn:Hfind; [| discriminate].
  destruct (shift_offset sock s h e Hold Hfind Hlt) as (Hpb & _ & _ & _ & Hlen).
  fold hp in Hpb, Hlen.
  destruct (receiveRequest_complete sock s header n h e Hold Hpeer Hlt Hfind
              Hparse Hcl ltac:(lia)) as (s1 & Hrun & Hbuf & Hbody & Hlen1 & Hhdr).
  change (accumulated sock s) with (buf_ hp) in Hbuf, Hlen.
  destruct (find_eoh_marker _ _ _ Hfind) as (marker & Hm & He & Hsplit).
  assert (Hne : bufferEmpty s1 = false).
  { unfold bufferEmpty. rewrite Hbuf.
    destruct (skipn e (buf_ hp)); [cbn [length] in Hlen; lia | reflexivity]. }
  pose proof (receiveBody_run sock' s1) as Hrun2. cbv zeta in Hrun2.
  assert (Hp : peerClosed sock' s1 = false) by (unfold peerClosed; now rewrite Hne).
  rewrite Hp, (window_buffered _ _ Hne), Hne, Hlen1, Hbody, Hbuf in Hrun2.
  destruct (Z.eqb_spec n 0) as [E | _]; [lia |].
  change (tellg ss_reset) with 0 in Hrun2. rewrite Z.sub_0_r in Hrun2.
  rewrite to_size_t_small, Z.min_r in Hrun2 by lia.
  assert (Htp : tellp (write ss_reset (skipn e (buf_ hp)) n) = n).
  { unfold tellp, write, ss_reset. cbn [str app]. rewrite length_firstn. lia. }
  rewrite Htp, Z.eqb_refl in Hrun2.
  eexists. exists marker. split.
  { unfold mbind, M_bind. rewrite Hrun. exact Hrun2. }
  split; [exact Hm |].
  cbn [str lastBody_ socketRecvBuffer_ lastRequestHeader_ set_socketRecvBuffer
       set_lastBody write ss_reset app].
  split; [| split].
  - rewrite firstn_skipn. unfold headerBlock. rewrite Hfind. exact Hsplit.
  - rewrite length_firstn. lia.
  - exact Hhdr.
Qed.

(** The result of a call is the outcome of the bytes accumulated with
    the window, read or buffered. *)
Lemma receiveRequest_outcome_window sock s :
  eoh (headerProcessor_ s) = false ->
  peerClosed sock s = false ->
  Z.of_nat (length (window sock s)) < 2 ^ 64 ->
  fst (receiveRequest parseRequest parseLLInt sock s)
  = requestOutcome parseRequest parseLLInt (accumulated sock s).
Proof.
  intros Hold Hpeer Hlt.
  pose proof (receiveRequest_run parseRequest parseLLInt sock s) as Hrun.
  cbv zeta in Hrun. rewrite Hpeer in Hrun.
  unfold eoh, getHttpRequestHeader, headerBlock in Hrun.
  change (buf_ (update (headerProcessor_ s) (window sock s)))
    with (accumulated sock s) in Hrun.
  unfold requestOutcome.
  destruct (find_eoh (accumulated sock s)) as [[h e]|] eqn:Hfind;
    [| now rewrite Hrun].
  destruct (parseRequest _) as [header|]; [| now rewrite Hrun].
  destruct (shift_offset sock s h e Hold Hfind Hlt) as (_ & Hle & _).
  rewrite Hle in Hrun.
  destruct (findAsLLInt parseLLInt header CONTENT_LENGTH) as [n|];
    [| now rewrite Hrun].
  destruct (n <? 0); now rewrite Hrun.
Qed.

Lemma receiveRequest_header_clears sock s h s' :
  receiveRequest parseRequest parseLLInt sock s = (Return (Some h), s') ->
  headerProcessor_ s' = clear.
Proof.
  rewrite receiveRequest_run. cbv zeta.
  run_cases; try discriminate; intros [= _ <-]; loop_cases; reflexivity.
Qed.

(** X13: the bytes left in the buffer when a header is returned are the
    start of the next request: the next [receiveRequest] gives the
    outcome of these bytes alone, whatever the socket would deliver. *)
Theorem leftover_is_next_request sock sock' s h s' :
  receiveRequest parseRequest parseLLInt sock s = (Return (Some h), s') ->
  socketRecvBuffer_ s' <> [] ->
  Z.of_nat (length (socketRecvBuffer_ s')) < 2 ^ 64 ->
  fst (receiveRequest parseRequest parseLLInt sock' s')
  = requestOutcome parseRequest parseLLInt (socketRecvBuffer_ s').
Proof.
  intros Hrun Hne Hlt.
  pose proof (receiveRequest_header_clears _ _ _ _ Hrun) as Hclear.
  assert (Hb : bufferEmpty s' = false).
  { unfold bufferEmpty. destruct (socketRecvBuffer_ s'); congruence. }
  rewrite receiveRequest_outcome_window.
  - unfold accumulated. now rewrite Hclear, (window_buffered _ _ Hb).
  - now rewrite Hclear.
  - unfold peerClosed. now rewrite Hb.
  - now rewrite (window_buffered _ _ Hb).
Qed.

(** ** Invariant of the calls that return *)

Lemma perform_consistent c s s' :
  consistent parseLLInt s ->
  perform parseRequest parseLLInt c s = (Return tt, s') ->
  consistent parseLLInt s'.
Proof.
  intros (Hg & Hopen & Hlast). unfold consistent.
  destruct c as [sock | sock | d st hs t ct | d t ct | p hs | u p];
    cbn [perform].
  - unfold mbind, M_bind.
    destruct (receiveRequest parseRequest parseLLInt sock s) as [[[h|]|e] s1] eqn:Hrun;
      [| | discriminate]; intros [= <-].
    + revert Hrun. rewrite receiveRequest_run. cbv zeta.
      run_cases; try discriminate; intros [= _ <-]; loop_cases;
        (split; [reflexivity |]); (split; [reflexivity |]);
        intros h' [= <-]; (split; [assumption | now apply Z.ltb_ge]).
    + revert Hrun. rewrite receiveRequest_run. cbv zeta.
      run_cases; try discriminate; intros [= <-];
        (split; [exact Hg |]); (split; [assumption | exact Hlast]).
  - unfold mbind, M_bind. rewrite receiveBody_run. cbv zeta.
    destruct (Z.eqb_spec (lastContentLength_ s) 0) as [E | E].
    { intros [= <-]. tauto. }
    destruct (peerClosed sock s); [discriminate |].
    intros [= <-].
    destruct (bufferEmpty s);
      (split; [exact Hg |]); (split; [exact Hopen | exact Hlast]).
  - rewrite feedResponse_run. intros [= <-]. tauto.
  - unfold feedResponse200. rewrite feedResponse_run. intros [= <-]. tauto.
  - unfold feedUpgradeResponse, pushStr, modify. intros [= <-]. tauto.
  - unfold modify. intros [= <-]. tauto.
Qed.

(** X16: as long as no call throws, every state reached from the
    constructor is consistent, whatever the uninitialised
    [lastContentLength_] holds at first: the body has never been read back
    (so its get position is 0), the header processor holds no complete
    header, and once a request has been returned the stored length is the
    Content-Length of the last request header, and not negative. *)
Theorem performAll_consistent cs uninitialised s :
  performAll parseRequest parseLLInt cs (HttpServer_ctor uninitialised)
  = (Return tt, s) ->
  consistent parseLLInt s.
Proof.
  assert (Hgen : forall cs s0 s1, consistent parseLLInt s0 ->
            performAll parseRequest parseLLInt cs s0 = (Return tt, s1) ->
            consistent parseLLInt s1).
  { clear. induction cs as [|c cs IH]; intros s0 s1 H0.
    - intros [= <-]. exact H0.
    - cbn [performAll]. unfold mbind at 1. unfold M_bind at 1.
      destruct (perform parseRequest parseLLInt c s0) as [[[]|e] s'] eqn:Hc;
        [| discriminate].
      intros Hrest. apply (IH s' s1); [| exact Hrest].
      exact (perform_consistent c s0 s' H0 Hc). }
  intros H. apply (Hgen cs (HttpServer_ctor uninitialised) s); [| exact H].
  unfold consistent. split; [reflexivity |]. split; [reflexivity |].
  intros h. discriminate.
Qed.

End Lifecycle.

(** ** Responses one after the other *)

Lemma c_str_no_nul (s : string) : hasNul s = false -> c_str s = s.
Proof.
  induction s as [|c s IH]; cbn [hasNul c_str]; [reflexivity |].
  destruct (N_of_ascii c =? 0)%N; cbn [orb]; [discriminate |].
  intros H. now rewrite IH.
Qed.

Lemma c_str_clean (s : string) : hasNul (c_str s) = false.
Proof.
  induction s as [|c s IH]; cbn [c_str]; [reflexivity |].
  destruct (N_of_ascii c =? 0)%N eqn:E; [reflexivity |].
  cbn [hasNul]. now rewrite E.
Qed.

(** X14: [feedUpgradeResponse] returns normally and changes the send
    queue only.  The queue gains the status line that the table gives for
    status 101, then [Upgrade:] with the protocol, [Connection: Upgrade],
    the caller's header lines and an empty line, and no body; of the
    protocol and of the header lines only what precedes a first NUL is
    sent, so texts without NUL are sent whole. *)
Theorem feedUpgradeResponse_bytes s protocol headers :
  let r := feedUpgradeResponse protocol headers s in
  fst r = Return tt
  /\ set_socketBuffer (socketBuffer_ (snd r)) s = snd r
  /\ queued (snd r)
     = queued s
       +:+ ("HTTP/1.1 " +:+ getStatusString 101 +:+ CRLF)
       +:+ ("Upgrade: " +:+ c_str protocol +:+ CRLF)
       +:+ ("Connection: Upgrade" +:+ CRLF)
       +:+ c_str headers +:+ CRLF
  /\ hasNul (c_str protocol) = false
  /\ hasNul (c_str headers) = false
  /\ (hasNul protocol = false -> c_str protocol = protocol)
  /\ (hasNul headers = false -> c_str headers = headers).
Proof.
  cbv zeta. unfold feedUpgradeResponse, pushStr, modify. cbn [fst snd].
  split; [reflexivity |]. split; [reflexivity |]. split.
  - unfold queued. cbn [socketBuffer_ set_socketBuffer].
    rewrite concat_app, concat_cons. cbn [String.concat].
    rewrite app_nil_r_s, ?app_assoc_s. reflexivity.
  - split; [apply c_str_clean |]. split; [apply c_str_clean |].
    split; apply c_str_no_nul.
Qed.

(** X15: responses are queued in the order they are fed, and feeding one
    does not change the next: after two calls of [feedResponse] the queue
    holds what it held, then the first response, then the second, each as
    it would be on the server before the first call. *)
Theorem feedResponse_in_order s d1 st1 h1 t1 c1 d2 st2 h2 t2 c2 :
  let s1 := snd (feedResponse d1 st1 h1 t1 c1 s) in
  let s2 := snd (feedResponse d2 st2 h2 t2 c2 s1) in
  queued s2
  = queued s +:+ responseBytes s d1 st1 h1 t1 c1 +:+ responseBytes s d2 st2 h2 t2 c2.
Proof.
  cbv zeta. rewrite !feedResponse_run. cbn [snd].
  unfold queued, responseBytes. cbn [socketBuffer_ set_socketBuffer].
  rewrite !concat_app, !concat_cons. cbn [String.concat].
  rewrite !app_nil_r_s, ?app_assoc_s. reflexivity.
Qed.

(** ** The added properties on concrete requests *)

(** The peer closes before any request. *)
Lemma receiveRequest_eof_witness :
  fst (receiveRequest Impl.parseRequest Impl.parseLLInt closed new_HttpServer)
  = Throw EX_EOF_FROM_PEER
  /\ snd (receiveRequest Impl.parseRequest Impl.parseLLInt closed new_HttpServer)
     = new_HttpServer.
Proof.
  destruct (receiveRequest_eof Impl.parseRequest Impl.parseLLInt closed
              new_HttpServer) as [[_ H1] H2].
  assert (H : fst (receiveRequest Impl.parseRequest Impl.parseLLInt closed
                     new_HttpServer) = Throw EX_EOF_FROM_PEER)
    by (apply H1; repeat split).
  split; [exact H | exact (H2 H)].
Defined.


(** Nothing has arrived yet. *)
Lemma idle_read_witness :
  receiveRequest Impl.parseRequest Impl.parseLLInt idle new_HttpServer
  = (Return None, new_HttpServer)
  /\ receiveBody idle expecting_server = (Return false, expecting_server).
Proof.
  split.
  - apply (idle_read Impl.parseRequest Impl.parseLLInt idle new_HttpServer);
      [reflexivity | reflexivity | left; reflexivity | reflexivity].
  - apply (idle_read Impl.parseRequest Impl.parseLLInt idle expecting_server);
      [reflexivity | reflexivity | left; reflexivity | discriminate].
Defined.

(** [abc] is buffered: a closed socket is not noticed. *)
Lemma buffered_bytes_first_witness :
  bufferEmpty post5_server = false
  /\ receiveBody closed post5_server = receiveBody idle post5_server.
Proof.
  assert (H : bufferEmpty post5_server = false) by (vm_compute; reflexivity).
  split; [exact H |].
  exact (proj2 (buffered_bytes_first Impl.parseRequest Impl.parseLLInt closed idle
                  post5_server H)).
Defined.

(** Half a request line after a complete request. *)
Lemma receiveRequest_incomplete_witness :
  exists s',
    receiveRequest Impl.parseRequest Impl.parseLLInt (arrives "GET / HT")
      expecting_server = (Return None, s')
    /\ lastContentLength_ s' = 5
    /\ buf_ (headerProcessor_ s') = list_byte_of_string "GET / HT".
Proof.
  eexists. 
  assert (H : receiveRequest Impl.parseRequest Impl.parseLLInt (arrives "GET / HT")
                expecting_server
              = (Return None,
                 snd (receiveRequest Impl.parseRequest Impl.parseLLInt
                        (arrives "GET / HT") expecting_server)))
    by (vm_compute; reflexivity).
  split; [exact H |].
  destruct (receiveRequest_incomplete _ _ _ _ _ H) as (_ & _ & Hcl & _ & _ & _ & Hbuf).
  split; [rewrite Hcl; reflexivity | rewrite Hbuf; reflexivity].
Defined.

Lemma receiveRequest_header_witness :
  after_request request_post5 = (Return (Some header_post5), post5_server)
  /\ getMethod post5_server = Some "POST"
  /\ getRequestPath post5_server = Some "/rpc"
  /\ getBody post5_server = ""
  /\ lastContentLength_ post5_server = 5.
Proof.
  assert (H : after_request request_post5 = (Return (Some header_post5), post5_server))
    by (vm_compute; reflexivity).
  split; [exact H |].
  destruct (receiveRequest_header _ _ _ _ _ _ H) as (_ & Hm & Hp & Hb & Hcl & _).
  split; [exact Hm |]. split; [exact Hp |]. split; [exact Hb |].
  vm_compute. reflexivity.
Defined.


Lemma receiveBody_conserves_witness :
  exists s',
    receiveBody idle post5_server = (Return false, s')
    /\ str (lastBody_ s') ++ socketRecvBuffer_ s' = list_byte_of_string "abc".
Proof.
  eexists.
  assert (H : receiveBody idle post5_server
              = (Return false, snd (receiveBody idle post5_server)))
    by (vm_compute; reflexivity).
  split; [exact H |].
  rewrite (receiveBody_conserves idle post5_server false _ ltac:(discriminate) H).
  vm_compute. reflexivity.
Defined.

Lemma receiveBody_first_call_witness :
  exists s',
    receiveBody idle post5_server = (Return false, s')
    /\ str (lastBody_ s') = list_byte_of_string "abc"
    /\ socketRecvBuffer_ s' = [].
Proof.
  destruct (receiveBody_first_call idle post5_server)
    as (s' & Hrun & Hbody & Hbuf & _);
    [reflexivity | reflexivity | vm_compute; split; reflexivity | reflexivity |].
  exists s'. split; [exact Hrun |].
  split; [rewrite Hbody | rewrite Hbuf]; vm_compute; reflexivity.
Defined.

(** The body [abc] comes with the header, and [GET] after it. *)
Lemma request_in_one_read_witness :
  exists s',
    (receiveRequest Impl.parseRequest Impl.parseLLInt (arrives request_post3);;
     receiveBody closed) new_HttpServer = (Return true, s')
    /\ Z.of_nat (length (str (lastBody_ s'))) = 3
    /\ lastRequestHeader_ s' = Some header_post3.
Proof.
  pose proof (request_in_one_read Impl.parseRequest Impl.parseLLInt
                (arrives request_post3) closed new_HttpServer header_post3 3) as H.
  cbv zeta in H.
  destruct H as (s' & marker & Hrun & _ & _ & Hlen & Hh);
    [reflexivity | reflexivity | reflexivity | vm_compute; reflexivity
    | vm_compute; reflexivity | vm_compute; reflexivity
    | vm_compute; split; [reflexivity | discriminate] |].
  exists s'. split; [exact Hrun |]. split; [exact Hlen | exact Hh].
Defined.

Lemma leftover_is_next_request_witness :
  after_request two_requests
  = (Return (Some header_a), snd (after_request two_requests))
  /\ fst (receiveRequest Impl.parseRequest Impl.parseLLInt closed
            (snd (after_request two_requests)))
     = requestOutcome Impl.parseRequest Impl.parseLLInt
         (socketRecvBuffer_ (snd (after_request two_requests)))
  /\ requestOutcome Impl.parseRequest Impl.parseLLInt
       (socketRecvBuffer_ (snd (after_request two_requests)))
     = Return (Some header_b).
Proof.
  assert (H : after_request two_requests
              = (Return (Some header_a), snd (after_request two_requests)))
    by (vm_compute; reflexivity).
  split; [exact H |]. split; [| vm_compute; reflexivity].
  apply (leftover_is_next_request _ _ _ _ _ _ _ H).
  - vm_compute. discriminate.
  - vm_compute. reflexivity.
Defined.

(** [a_session] on a constructed object whose uninitialised member
    holds 7. *)
Lemma performAll_consistent_witness :
  exists s,
    performAll Impl.parseRequest Impl.parseLLInt a_session (HttpServer_ctor 7)
    = (Return tt, s)
    /\ consistent Impl.parseLLInt s
    /\ lastContentLength_ s = 5.
Proof.
  eexists.
  assert (H : performAll Impl.parseRequest Impl.parseLLInt a_session
                (HttpServer_ctor 7)
              = (Return tt,
                 snd (performAll Impl.parseRequest Impl.parseLLInt a_session
                        (HttpServer_ctor 7))))
    by (vm_compute; reflexivity).
  split; [exact H |].
  split; [exact (performAll_consistent _ _ _ _ _ H) | vm_compute; reflexivity].
Defined.

Example a_session_body :
  getBody (snd (performAll Impl.parseRequest Impl.parseLLInt a_session
                  new_HttpServer)) = "abcde".
Proof. vm_compute. reflexivity. Qed.

(** ** The body within Content-Length *)

(** X18: as long as the window holds no more than the bytes still
    missing, [receiveBody] takes the whole window: the body grows by it,
    the buffer is left empty, and the call returns true exactly when the
    body has reached Content-Length. *)
Theorem receiveBody_within_length sock s :
  tellg (lastBody_ s) = 0 ->
  0 < lastContentLength_ s < 2 ^ 64 ->
  peerClosed sock s = false ->
  tellp (lastBody_ s) + Z.of_nat (length (window sock s)) <= lastContentLength_ s ->
  exists s',
    receiveBody sock s
    = (Return (tellp (lastBody_ s) + Z.of_nat (length (window sock s))
               =? lastContentLength_ s), s')
    /\ str (lastBody_ s') = str (lastBody_ s) ++ window sock s
    /\ socketRecvBuffer_ s' = [].
Proof.
  intros Hg Hcl Hpeer Hfit. unfold tellp in Hfit.
  rewrite receiveBody_run. cbv zeta.
  destruct (Z.eqb_spec (lastContentLength_ s) 0) as [E | _]; [lia |].
  rewrite Hpeer, Hg, Z.sub_0_r, to_size_t_small by lia.
  rewrite Z.min_l by lia.
  eexists. split; [| split].
  - f_equal. f_equal. unfold tellp, write. cbn [str].
    rewrite ?Nat2Z.id, firstn_all, length_app, Nat2Z.inj_add. apply Z.eqb_sym.
  - cbn [str lastBody_ set_socketRecvBuffer set_lastBody write].
    now rewrite ?Nat2Z.id, firstn_all.
  - cbn [socketRecvBuffer_ set_socketRecvBuffer].
    rewrite ?Nat2Z.id. apply skipn_all.
Qed.

Lemma receiveBody_within_length_witness :
  exists s',
    receiveBody idle post5_server = (Return false, s')
    /\ str (lastBody_ s') = list_byte_of_string "abc"
    /\ socketRecvBuffer_ s' = [].
Proof.
  destruct (receiveBody_within_length idle post5_server)
    as (s' & Hrun & Hbody & Hbuf);
    [reflexivity | vm_compute; split; reflexivity | reflexivity
    | vm_compute; discriminate |].
  exists s'. split; [exact Hrun |]. split; [rewrite Hbody; reflexivity | exact Hbuf].
Defined.

(** ** Authentication in the course of a request *)

Section AuthenticationFlow.

Variable parseRequest : bytes -> option HttpHeader.
Variable parseLLInt : string -> option Z.
Variable divide : string -> ascii -> string * string.
Variable base64_decode : string -> string.

(** X17: [authenticate] judges the header that [receiveRequest] has just
    returned, with the credentials as they were before the call; reading
    the body or feeding a response afterwards does not change its
    answer. *)
Theorem authenticate_flow sock s h s' :
  receiveRequest parseRequest parseLLInt sock s = (Return (Some h), s') ->
  authenticate divide base64_decode s'
  = authenticate divide base64_decode (set_lastRequestHeader (Some h) s)
  /\ (forall sock',
        authenticate divide base64_decode (snd (receiveBody sock' s'))
        = authenticate divide base64_decode s')
  /\ (forall httpDate status headers text contentType,
        authenticate divide base64_decode
          (snd (feedResponse httpDate status headers text contentType s'))
        = authenticate divide base64_decode s').
Proof.
  intros Hrun.
  assert (Hsame : forall a b,
            username_ a = username_ b -> password_ a = password_ b ->
            lastRequestHeader_ a = lastRequestHeader_ b ->
            authenticate divide base64_decode a = authenticate divide base64_decode b).
  { intros a b Hu Hp Hh. unfold authenticate. now rewrite Hu, Hp, Hh. }
  split; [| split].
  - revert Hrun. rewrite receiveRequest_run. cbv zeta.
    repeat match goal with
           | |- context [if ?b then _ else _] => destruct b
           | |- context [match ?o with Some _ => _ | None => _ end] => destruct o
           end; try discriminate; intros [= <- <-];
      match goal with
      | |- context [gzipLoop ?l ?x] => destruct (gzipLoop_cases l x) as [-> | ->]
      end; apply Hsame; reflexivity.
  - intros sock'. apply Hsame; rewrite receiveBody_run; cbv zeta;
      repeat match goal with
             | |- context [if ?b then _ else _] => destruct b
             end; reflexivity.
  - intros httpDate status headers text contentType.
    rewrite feedResponse_run. apply Hsame; reflexivity.
Qed.

End AuthenticationFlow.

Lemma authenticate_flow_witness :
  after_request request_post5 = (Return (Some header_post5), post5_server)
  /\ authenticate Impl.divide Impl.base64_decode post5_server
     = authenticate Impl.divide Impl.base64_decode
         (set_lastRequestHeader (Some header_post5) new_HttpServer).
Proof.
  assert (H : after_request request_post5 = (Return (Some header_post5), post5_server))
    by (vm_compute; reflexivity).
  split; [exact H |].
  exact (proj1 (authenticate_flow Impl.parseRequest Impl.parseLLInt Impl.divide
                  Impl.base64_decode _ _ _ _ H)).
Defined.
